(** * Squashing and balancing of blocks (Interpreters/SquashingTransform)

    A shallow embedding of [SquashingTransform], [NewSquashingTransform],
    [BalanceTransform] and of the memory check of [BalanceBlockTransform],
    followed by the properties of the accumulation protocol. *)

From Stdlib Require Import ZArith String List Bool Lia DecimalString.
Import ListNotations.
Local Open Scope Z_scope.

(** ** Machine integers *)

(** [size_t] and [UInt64] are 64-bit unsigned, [Int64] is 64-bit signed. *)
Definition size_t_modulus : Z := 2 ^ 64.

(** [a + b] on [size_t] (used by every [+=] on [rows] and [bytes]). *)
Definition size_t_add (a b : Z) : Z := (a + b) mod size_t_modulus.

(** The cast [Int64(x)]: the value of [x] read as a two's complement number. *)
Definition toInt64 (x : Z) : Z := (x + 2 ^ 63) mod size_t_modulus - 2 ^ 63.

(** [a - b] on [Int64]. *)
Definition Int64_sub (a b : Z) : Z := toInt64 (a - b).

(** ** Exceptions and outcomes *)

Inductive ErrorCode : Type :=
| SIZES_OF_COLUMNS_DOESNT_MATCH   (* thrown by SquashingTransform::isEnoughSize *)
| LOGICAL_ERROR                   (* Chunk::checkNumRowsIsConsistent *)
| ASSERTION_FAILED                (* assert(blocksHaveEqualStructure(...)) *)
| OUT_OF_RANGE                    (* an index past the end of a vector *)
| NULL_DEREFERENCE.               (* typeid_cast returned nullptr and it was used *)

(** A call returns a value, throws, or never comes back from the busy wait
    (the polling budget of the model is exhausted). *)
Inductive outcome (A : Type) : Type :=
| Ok (a : A)
| Throw (e : ErrorCode)
| Spin.
Arguments Ok {A} a.
Arguments Throw {A} e.
Arguments Spin {A}.

(** Methods read and write the fields of their object: a state and error monad. *)
Definition M (S A : Type) : Type := S -> outcome (A * S).

Definition ret {S A} (a : A) : M S A := fun s => Ok (a, s).

Definition bind {S A B} (m : M S A) (k : A -> M S B) : M S B :=
  fun s => match m s with
           | Ok (a, s') => k a s'
           | Throw e => Throw e
           | Spin => Spin
           end.

Definition get_state {S} : M S S := fun s => Ok (s, s).
Definition put_state {S} (s : S) : M S unit := fun _ => Ok (tt, s).
Definition throw {S A} (e : ErrorCode) : M S A := fun _ => Throw e.
Definition lift {S A} (o : outcome A) : M S A :=
  fun s => match o with
           | Ok a => Ok (a, s)
           | Throw e => Throw e
           | Spin => Spin
           end.

Declare Scope monad_scope.
Delimit Scope monad_scope with monad.
Notation "x <- c ;; k" := (bind c (fun x => k))
  (at level 61, c at next level, right associativity) : monad_scope.
Notation "c ;;; k" := (bind c (fun _ => k))
  (at level 61, right associativity) : monad_scope.

(** ** Columns, blocks and chunks *)

(** Modelled from the spec: Columns/IColumn.h is not among the sources. A
    column holds a sequence of values; [size()] is their number,
    [insertRangeFrom] appends values and [byteSize()] is virtual: it depends
    on the concrete column class. *)
Class IColumn (Field : Type) : Type := { byteSize : list Field -> Z }.
#[global] Hint Mode IColumn ! : typeclass_instances.

(** [column->size()] *)
Definition size {Field} (c : list Field) : Z := Z.of_nat (length c).

(** A vector of 64-bit values: eight bytes per row. *)
Definition ColumnUInt64_byteSize (c : list Z) : Z := 8 * size c.
#[export] Instance ColumnUInt64 : IColumn Z := {| byteSize := ColumnUInt64_byteSize |}.

(** A data type is known here by [getName()]. *)
Definition DataType : Type := string.
Definition DataTypes : Type := list DataType.

(** [toString(i)] for a [size_t] index. *)
Definition toString (i : nat) : string := NilEmpty.string_of_uint (Nat.to_uint i).

Section DataModel.
Context {Field : Type}.

Definition Column : Type := list Field.
Definition Columns : Type := list Column.

Record ColumnWithTypeAndName : Type := mkColumnWithTypeAndName {
  column : Column;
  type : DataType;
  name : string
}.

(** Modelled from the spec: Core/Block.h is not among the sources. A block
    is its ordered sequence of columns with their types and names, "an
    ordered set of named columns"; the index by name that the class keeps
    next to that sequence is left out. *)
Definition Block : Type := list ColumnWithTypeAndName.

(** [block.columns()] *)
Definition columns (block : Block) : Z := Z.of_nat (length block).

(** [Block::operator bool]: the block has columns. The block without
    columns is the end-of-stream sentinel. *)
Definition Block_bool (block : Block) : bool := negb (columns block =? 0).

(** [block.rows()]: the size of the first column, 0 without columns. *)
Definition rows (block : Block) : Z :=
  match block with
  | [] => 0
  | c :: _ => size (column c)
  end.

Definition getColumns (block : Block) : Columns := map column block.
Definition getDataTypes (block : Block) : DataTypes := map type block.

(** [header.cloneEmptyColumns()] *)
Definition cloneEmptyColumns (block : Block) : Columns :=
  map (fun _ : ColumnWithTypeAndName => @nil Field) block.

(** Modelled from the spec: [blocksHaveEqualStructure] is declared in
    Core/Block.h. Two blocks have equal structure when they have the same
    number of columns with the same types and names in the same order
    ("identical column count/order between buffer and incoming batch"). *)
Fixpoint blocksHaveEqualStructure (lhs rhs : Block) : bool :=
  match lhs, rhs with
  | [], [] => true
  | l :: lhs', r :: rhs' =>
      String.eqb (type l) (type r) && String.eqb (name l) (name r)
      && blocksHaveEqualStructure lhs' rhs'
  | _, _ => false
  end.

(** The structure of a block: the types and names of its columns. *)
Definition structure (block : Block) : list (DataType * string) :=
  map (fun c => (type c, name c)) block.

(** Modelled from the spec: Processors/Chunk.h is not among the sources. A
    chunk is its columns, its number of rows and an optional [ChunkInfo]
    ("attached out-of-band metadata"); the two kinds of info declared in
    SquashingTransform.h are the lists of chunks and of blocks to squash. *)
Inductive Chunk : Type :=
| mkChunk (chunk_columns : Columns) (num_rows : Z) (chunk_info : option ChunkInfo)
with ChunkInfo : Type :=
| ChunksToSquash (chunks : list Chunk) (data_types : DataTypes)
| BlocksToSquash (blocks : list Block).

Definition chunkColumns (c : Chunk) : Columns :=
  match c with mkChunk cols _ _ => cols end.
Definition getNumRows (c : Chunk) : Z :=
  match c with mkChunk _ n _ => n end.
Definition getChunkInfo (c : Chunk) : option ChunkInfo :=
  match c with mkChunk _ _ i => i end.

Definition getNumColumns (c : Chunk) : Z := Z.of_nat (length (chunkColumns c)).
Definition hasChunkInfo (c : Chunk) : bool :=
  match getChunkInfo c with Some _ => true | None => false end.
Definition hasRows (c : Chunk) : bool := 0 <? getNumRows c.
Definition hasColumns (c : Chunk) : bool := negb (getNumColumns c =? 0).

(** [Chunk::operator bool]: not [empty()]. *)
Definition Chunk_bool (c : Chunk) : bool := hasRows c || hasColumns c.

(** The default-constructed chunk [{}]. *)
Definition emptyChunk : Chunk := mkChunk [] 0 None.

(** Modelled from the spec: the constructors of [Chunk] are in
    Processors/Chunk.h. Every column of a batch holds exactly as many values
    as the batch has rows; the constructors check it and throw otherwise. *)
Definition checkNumRowsIsConsistent (cols : Columns) (num_rows : Z) : bool :=
  forallb (fun c => size c =? num_rows) cols.

Definition newChunk (cols : Columns) (num_rows : Z) (info : option ChunkInfo)
  : outcome Chunk :=
  if checkNumRowsIsConsistent cols num_rows
  then Ok (mkChunk cols num_rows info)
  else Throw LOGICAL_ERROR.

(** [chunk.clone()]: a chunk with the same columns, rows and info (the check
    of the constructor has passed when the chunk was made). *)
Definition clone (c : Chunk) : Chunk := c.

(** The loop shared by every [append]:
    [for i < accumulated_block.columns()] the values of source column [i]
    are inserted at the end of accumulated column [i]
    ([insertRangeFrom] of the whole source column).
    Reading a source column that does not exist is out of range. *)
Fixpoint insertRangeFromColumns (accumulated : Block) (source : Columns)
  : outcome Block :=
  match accumulated with
  | [] => Ok []
  | a :: accumulated' =>
      match source with
      | [] => Throw OUT_OF_RANGE
      | s :: source' =>
          match insertRangeFromColumns accumulated' source' with
          | Ok rest =>
              Ok (mkColumnWithTypeAndName (column a ++ s) (type a) (name a) :: rest)
          | Throw e => Throw e
          | Spin => Spin
          end
      end
  end.

(** The values of column [i] of a block; nothing when there is no such column. *)
Definition columnData (i : nat) (block : Block) : Column :=
  nth i (getColumns block) [].

(** Column [i] of a sequence of blocks, read one block after the other. *)
Definition concatColumn (i : nat) (blocks : list Block) : Column :=
  flat_map (columnData i) blocks.

Definition chunkData (i : nat) (c : Chunk) : Column := nth i (chunkColumns c) [].

Definition concatChunkColumn (i : nat) (cs : list Chunk) : Column :=
  flat_map (chunkData i) cs.

(** Rows of a sequence of blocks. *)
Definition totalRows (blocks : list Block) : Z :=
  fold_right (fun b n => rows b + n) 0 blocks.

(** All columns of the block have the same size. *)
Definition consistentRows (block : Block) : bool :=
  forallb (fun c => size (column c) =? rows block) block.

(** A batch of the stream with layout [header]: the sentinel, or a block
    with the header's structure whose columns have one size. *)
Definition batchOf (header block : Block) : bool :=
  match block with
  | [] => true
  | _ => blocksHaveEqualStructure block header && consistentRows block
  end.

End DataModel.

Arguments Column : clear implicits.
Arguments Columns : clear implicits.
Arguments ColumnWithTypeAndName : clear implicits.
Arguments Block : clear implicits.
Arguments Chunk : clear implicits.
Arguments ChunkInfo : clear implicits.

(** ** The memory tracker *)

(** Modelled from the spec: Common/MemoryTracker.h is not among the
    sources. The tracker gives "current usage and a hard ceiling (0 meaning
    unbounded)"; it is shared with the rest of the query, so [get()] is the
    sequence of the values it returns, read after read, numbered from 0. *)
Record MemoryTracker : Type := mkMemoryTracker {
  getHardLimit : Z;
  get : nat -> Z
}.

(** The body of [while (Int64(bytes) >= free_memory) free_memory = ...]
    together with the read before it: at most [budget] reads, the first one
    being read number [k]. Returns the number of the next read. *)
Fixpoint waitForMemory (memory_tracker : MemoryTracker) (hard_limit : bool)
    (bytes : Z) (budget : nat) (k : nat) : option nat :=
  match budget with
  | O => None
  | S budget' =>
      let free_memory := Int64_sub (Z.b2z hard_limit) (get memory_tracker k) in
      if toInt64 bytes >=? free_memory
      then waitForMemory memory_tracker hard_limit bytes budget' (S k)
      else Some (S k)
  end.

(** [checkAndWaitMemoryAvailability(bytes)], the same text in
    [BalanceTransform] and in [BalanceBlockTransform]. In
    [const auto hard_limit = memory_tracker->getHardLimit() != 0] the
    comparison binds first, so [hard_limit] is the boolean
    "the limit is not zero". [k] is the number of the next read of [get()];
    the result is that number after the call, [None] when the wait is not
    over within [budget] reads. *)
Definition checkAndWaitMemoryAvailability (memory_tracker : MemoryTracker)
    (budget : nat) (bytes : Z) (k : nat) : option nat :=
  let hard_limit := negb (getHardLimit memory_tracker =? 0) in
  if hard_limit
  then waitForMemory memory_tracker hard_limit bytes budget k
  else Some k.

(** ** SquashingTransform *)

Module SquashingTransform.
Section WithThresholds.
Context {Field : Type} `{IColumn Field}.
Variables min_block_size_rows min_block_size_bytes : Z.

Local Open Scope monad_scope.

(** The only mutable field is [accumulated_block]. *)
Definition state : Type := Block Field.

(** The object after construction. *)
Definition init : state := [].

(** [isEnoughSize(size_t rows, size_t bytes)] *)
Definition isEnoughSize (rows bytes : Z) : bool :=
  (negb (negb (min_block_size_rows =? 0)) && negb (negb (min_block_size_bytes =? 0)))
  || (negb (min_block_size_rows =? 0) && (rows >=? min_block_size_rows))
  || (negb (min_block_size_bytes =? 0) && (bytes >=? min_block_size_bytes)).

(** The loop of [isEnoughSize(const Block &)] over the columns that are
    left, with the current [rows] and [bytes]. *)
Fixpoint sizesOfColumns (block : Block Field) (rows bytes : Z) : outcome (Z * Z) :=
  match block with
  | [] => Ok (rows, bytes)
  | c :: block' =>
      if rows =? 0
      then sizesOfColumns block' (size (column c)) (size_t_add bytes (byteSize (column c)))
      else if negb (rows =? size (column c))
      then Throw SIZES_OF_COLUMNS_DOESNT_MATCH
      else sizesOfColumns block' rows (size_t_add bytes (byteSize (column c)))
  end.

(** [isEnoughSize(const Block &)] *)
Definition isEnoughSizeBlock (block : Block Field) : outcome bool :=
  match sizesOfColumns block 0 0 with
  | Ok (rows, bytes) => Ok (isEnoughSize rows bytes)
  | Throw e => Throw e
  | Spin => Spin
  end.

(** [append(input_block)]; a failed [assert] ends the call (a schema
    mismatch is fatal). *)
Definition append (input_block : Block Field) : M state unit :=
  accumulated_block <- get_state ;;
  if negb (Block_bool accumulated_block)
  then put_state input_block
  else if negb (blocksHaveEqualStructure input_block accumulated_block)
  then throw ASSERTION_FAILED
  else
    appended <- lift (insertRangeFromColumns accumulated_block (getColumns input_block)) ;;
    put_state appended.

(** [std::swap(to_return, accumulated_block); return to_return;] *)
Definition swapAndReturn (to_return : Block Field) : M state (Block Field) :=
  accumulated_block <- get_state ;;
  put_state to_return ;;;
  ret accumulated_block.

(** [addImpl(input_block)] *)
Definition addImpl (input_block : Block Field) : M state (Block Field) :=
  (* End of input stream. *)
  if negb (Block_bool input_block)
  then swapAndReturn []
  else
    enough_input <- lift (isEnoughSizeBlock input_block) ;;
    if enough_input : bool
    then
      (* Just read block is already enough. *)
      accumulated_block <- get_state ;;
      if negb (Block_bool accumulated_block)
      then ret input_block
      else swapAndReturn input_block
    else
      accumulated_block <- get_state ;;
      enough_accumulated <- lift (isEnoughSizeBlock accumulated_block) ;;
      if enough_accumulated : bool
      then
        (* Accumulated block is already enough. *)
        swapAndReturn input_block
      else
        append input_block ;;;
        appended <- get_state ;;
        enough_appended <- lift (isEnoughSizeBlock appended) ;;
        if enough_appended : bool
        then swapAndReturn []
        else
          (* Squashed block is not ready. *)
          ret [].

(** [add(Block &&)] and [add(const Block &)] *)
Definition add (input_block : Block Field) : M state (Block Field) :=
  addImpl input_block.

(** The blocks returned by [add] on each block of a stream, call by call. *)
Fixpoint run (inputs : list (Block Field)) : M state (list (Block Field)) :=
  match inputs with
  | [] => ret []
  | input_block :: inputs' =>
      returned <- add input_block ;;
      rest <- run inputs' ;;
      ret (returned :: rest)
  end.

End WithThresholds.
End SquashingTransform.

(** ** NewSquashingTransform *)

Module NewSquashingTransform.
Section WithColumns.
Context {Field : Type}.

Local Open Scope monad_scope.

(** The thresholds are stored by the constructor and never read:
    [isEnoughSize] is declared for this class and not defined. The only
    mutable field is [accumulated_block]. *)
Definition state : Type := Block Field.

Definition init : state := [].

(** [getInfoFromChunk]: the [typeid_cast] gives [nullptr] ([None]) for
    every info that is not a [ChunksToSquash]. *)
Definition getInfoFromChunk (chunk : Chunk Field)
  : option (list (Chunk Field) * DataTypes) :=
  match getChunkInfo chunk with
  | Some (ChunksToSquash chunks data_types) => Some (chunks, data_types)
  | _ => None
  end.

(** The first loop of [append], from column [i] on: column [i] of the chunk
    is inserted at the end of the block with type [data_types[i]] and name
    [data_types[i]->getName() + toString(i)]. *)
Fixpoint insertChunkColumns (cols : Columns Field) (data_types : DataTypes)
    (i : nat) (accumulated : Block Field) : outcome (Block Field) :=
  match cols with
  | [] => Ok accumulated
  | c :: cols' =>
      match nth_error data_types i with
      | None => Throw OUT_OF_RANGE
      | Some t =>
          insertChunkColumns cols' data_types (S i)
            (accumulated ++ [mkColumnWithTypeAndName c t (t ++ toString i)%string])
      end
  end.

(** [append(input_chunk, data_types)] *)
Definition append (input_chunk : Chunk Field) (data_types : DataTypes)
  : M state unit :=
  if getNumColumns input_chunk =? 0
  then ret tt
  else
    accumulated_block <- get_state ;;
    if negb (Block_bool accumulated_block)
    then
      inserted <- lift (insertChunkColumns (chunkColumns input_chunk) data_types
                          O accumulated_block) ;;
      put_state inserted
    else
      appended <- lift (insertRangeFromColumns accumulated_block
                          (chunkColumns input_chunk)) ;;
      put_state appended.

(** [for (i < info->chunks.size()) append(std::move(info->chunks[i]), info->data_types)] *)
Fixpoint appendAll (chunks : list (Chunk Field)) (data_types : DataTypes)
  : M state unit :=
  match chunks with
  | [] => ret tt
  | chunk :: chunks' => append chunk data_types ;;; appendAll chunks' data_types
  end.

(** [std::swap(to_return, accumulated_block); return to_return;] with an
    empty [to_return]. *)
Definition swapAndReturn : M state (Block Field) :=
  accumulated_block <- get_state ;;
  put_state [] ;;;
  ret accumulated_block.

(** [addImpl(input_chunk)] *)
Definition addImpl (input_chunk : Chunk Field) : M state (Block Field) :=
  if negb (hasChunkInfo input_chunk)
  then swapAndReturn
  else
    match getInfoFromChunk input_chunk with
    | None => throw NULL_DEREFERENCE
    | Some (chunks, data_types) =>
        appendAll chunks data_types ;;;
        swapAndReturn
    end.

(** [add(Chunk &&)] *)
Definition add (input_chunk : Chunk Field) : M state (Block Field) :=
  addImpl input_chunk.

End WithColumns.
End NewSquashingTransform.

(** ** BalanceTransform *)

Module BalanceTransform.
Section WithThresholds.
Context {Field : Type} `{IColumn Field}.
Variable header : Block Field.
Variables min_block_size_rows min_block_size_bytes : Z.
Variable memory_tracker : MemoryTracker.
(** How many reads of [get()] one wait of the model may take. *)
Variable budget : nat.

Local Open Scope monad_scope.

(** What a call does to the memory check and to [chunks_to_merge_vec], in
    the order in which it does it. *)
Inductive Event : Type :=
| MemoryChecked (bytes : Z)
| PendingCleared
| PendingPushed (chunk : Chunk Field).

(** The mutable fields, the number of the next read of the memory tracker,
    and the events so far. [accumulated_block] is never used by this class. *)
Record state : Type := mkState {
  chunks_to_merge_vec : list (Chunk Field);
  data_types : DataTypes;
  reads : nat;
  events : list Event
}.

Definition init : state := mkState [] [] O [].

Definition record (e : Event) : M state unit :=
  fun s => Ok (tt, mkState (chunks_to_merge_vec s) (data_types s) (reads s)
                     (events s ++ [e])).

Definition setChunks (chunks : list (Chunk Field)) : M state unit :=
  fun s => Ok (tt, mkState chunks (data_types s) (reads s) (events s)).

Definition setDataTypes (types : DataTypes) : M state unit :=
  fun s => Ok (tt, mkState (chunks_to_merge_vec s) types (reads s) (events s)).

(** [chunks_to_merge_vec.clear()] *)
Definition clearChunks : M state unit :=
  record PendingCleared ;;; setChunks [].

(** [chunks_to_merge_vec.push_back(chunk)] *)
Definition pushChunk (chunk : Chunk Field) : M state unit :=
  s <- get_state ;;
  record (PendingPushed chunk) ;;;
  setChunks (chunks_to_merge_vec s ++ [chunk]).

(** The call [checkAndWaitMemoryAvailability(bytes)] on this object. *)
Definition memoryGate (bytes : Z) : M state unit :=
  fun s =>
    match checkAndWaitMemoryAvailability memory_tracker budget bytes (reads s) with
    | Some k =>
        Ok (tt, mkState (chunks_to_merge_vec s) (data_types s) k
                  (events s ++ [MemoryChecked bytes]))
    | None => Spin
    end.

(** [isEnoughSize(size_t rows, size_t bytes)] *)
Definition isEnoughSize (rows bytes : Z) : bool :=
  (negb (negb (min_block_size_rows =? 0)) && negb (negb (min_block_size_bytes =? 0)))
  || (negb (min_block_size_rows =? 0) && (rows >=? min_block_size_rows))
  || (negb (min_block_size_bytes =? 0) && (bytes >=? min_block_size_bytes)).

(** Modelled from the spec: [Chunk::bytes()] is declared in
    Processors/Chunk.h; the byte size of a batch is the sum of the byte
    sizes of its columns. *)
Definition Chunk_bytes (chunk : Chunk Field) : Z :=
  fold_left (fun res c => size_t_add res (byteSize c)) (chunkColumns chunk) 0.

(** The loop of [isEnoughSize(const std::vector<Chunk> &)]. *)
Fixpoint sizesOfChunks (chunks : list (Chunk Field)) (rows bytes : Z) : Z * Z :=
  match chunks with
  | [] => (rows, bytes)
  | chunk :: chunks' =>
      sizesOfChunks chunks' (size_t_add rows (getNumRows chunk))
        (size_t_add bytes (Chunk_bytes chunk))
  end.

(** The rows and bytes the loop ends with, and what [isEnoughSize] answers
    for them. *)
Definition pendingRows (chunks : list (Chunk Field)) : Z :=
  fst (sizesOfChunks chunks 0 0).
Definition pendingBytes (chunks : list (Chunk Field)) : Z :=
  snd (sizesOfChunks chunks 0 0).
Definition pendingEnough (chunks : list (Chunk Field)) : bool :=
  isEnoughSize (pendingRows chunks) (pendingBytes chunks).

(** [isEnoughSize(chunks_to_merge_vec)] *)
Definition isEnoughSizeChunks : M state bool :=
  s <- get_state ;;
  let (rows, bytes) := sizesOfChunks (chunks_to_merge_vec s) 0 0 in
  memoryGate bytes ;;;
  ret (isEnoughSize rows bytes).

(** [convertToChunk(chunks_to_merge_vec)] *)
Definition convertToChunk : M state (Chunk Field) :=
  s <- get_state ;;
  match chunks_to_merge_vec s with
  | [] => ret emptyChunk
  | _ =>
      let info := ChunksToSquash (map clone (chunks_to_merge_vec s)) (data_types s) in
      clearChunks ;;;
      lift (newChunk (cloneEmptyColumns header) 0 (Some info))
  end.

(** [addImpl(input_block)] *)
Definition addImpl (input_block : Block Field) : M state (Chunk Field) :=
  input_chunk <- lift (newChunk (getColumns input_block) (rows input_block) None) ;;
  (match getDataTypes input_block with
   | [] => ret tt
   | types => setDataTypes types
   end) ;;;
  if negb (Chunk_bool input_chunk)
  then convertToChunk
  else
    enough_before <- isEnoughSizeChunks ;;
    (if enough_before : bool then clearChunks else ret tt) ;;;
    (if Chunk_bool input_chunk then pushChunk (clone input_chunk) else ret tt) ;;;
    enough_after <- isEnoughSizeChunks ;;
    if enough_after : bool
    then convertToChunk
    else ret input_chunk.

(** [add(Block &&)] *)
Definition add (input_block : Block Field) : M state (Chunk Field) :=
  addImpl input_block.

(** [isDataLeft()] *)
Definition isDataLeft (s : state) : bool :=
  match chunks_to_merge_vec s with [] => false | _ => true end.

(** What holds of the balancer between calls on a stream with the layout of
    [header]: every pending chunk has the columns of the header, and the
    list is empty, or not enough and kept with the types of the header. *)
Definition balanced (s : state) : Prop :=
  Forall (fun chunk => length (chunkColumns chunk) = length header)
    (chunks_to_merge_vec s)
  /\ (chunks_to_merge_vec s = []
      \/ (pendingEnough (chunks_to_merge_vec s) = false
          /\ data_types s = getDataTypes header)).

(** The balancer feeding a [NewSquashingTransform]: every chunk that comes
    back from [add] with a chunk info goes into the squashing [add]; the
    result is the blocks the squasher returns, in order. *)
Fixpoint pipeline (inputs : list (Block Field)) (s : state)
    (squashing : NewSquashingTransform.state)
  : outcome (list (Block Field) * (state * NewSquashingTransform.state)) :=
  match inputs with
  | [] => Ok ([], (s, squashing))
  | input_block :: inputs' =>
      match add input_block s with
      | Ok (chunk, s') =>
          if hasChunkInfo chunk
          then
            match NewSquashingTransform.add chunk squashing with
            | Ok (block, squashing') =>
                match pipeline inputs' s' squashing' with
                | Ok (rest, final) => Ok (block :: rest, final)
                | Throw e => Throw e
                | Spin => Spin
                end
            | Throw e => Throw e
            | Spin => Spin
            end
          else pipeline inputs' s' squashing
      | Throw e => Throw e
      | Spin => Spin
      end
  end.

End WithThresholds.
End BalanceTransform.

(** ** NewSquashingBlockTransform *)

(** [block.getNames()] *)
Definition getNames {Field : Type} (block : Block Field) : list string :=
  map name block.

Module NewSquashingBlockTransform.
Section WithColumns.
Context {Field : Type}.

Local Open Scope monad_scope.

(** As in [NewSquashingTransform] the thresholds are never read; the only
    mutable field is [accumulated_block]. *)
Definition state : Type := Block Field.

Definition init : state := [].

(** [getInfoFromChunkBlock]: the [typeid_cast] gives [nullptr] ([None]) for
    every info that is not a [BlocksToSquash]. *)
Definition getInfoFromChunkBlock (chunk : Chunk Field) : option (list (Block Field)) :=
  match getChunkInfo chunk with
  | Some (BlocksToSquash blocks) => Some blocks
  | _ => None
  end.

(** The first loop of [append], with [remaining] columns to go from column
    [i] on: column [i] of the input is inserted at the end of the block with
    [getDataTypes()[i]] and [getNames()[i]]. *)
Fixpoint insertBlockColumns (remaining : nat) (input_block : Block Field)
    (i : nat) (accumulated : Block Field) : outcome (Block Field) :=
  match remaining with
  | O => Ok accumulated
  | S remaining' =>
      match nth_error (getColumns input_block) i,
            nth_error (getDataTypes input_block) i,
            nth_error (getNames input_block) i with
      | Some c, Some t, Some n =>
          insertBlockColumns remaining' input_block (S i)
            (accumulated ++ [mkColumnWithTypeAndName c t n])
      | _, _, _ => Throw OUT_OF_RANGE
      end
  end.

(** [append(input_block)] *)
Definition append (input_block : Block Field) : M state unit :=
  if columns input_block =? 0
  then ret tt
  else
    accumulated_block <- get_state ;;
    if negb (Block_bool accumulated_block)
    then
      inserted <- lift (insertBlockColumns (length input_block) input_block
                          O accumulated_block) ;;
      put_state inserted
    else
      appended <- lift (insertRangeFromColumns accumulated_block
                          (getColumns input_block)) ;;
      put_state appended.

(** [for (auto & block : info->blocks) append(std::move(block))] *)
Fixpoint appendAll (blocks : list (Block Field)) : M state unit :=
  match blocks with
  | [] => ret tt
  | block :: blocks' => append block ;;; appendAll blocks'
  end.

(** [std::swap(to_return, accumulated_block); return to_return;] with an
    empty [to_return]. *)
Definition swapAndReturn : M state (Block Field) :=
  accumulated_block <- get_state ;;
  put_state [] ;;;
  ret accumulated_block.

(** [addImpl(input_chunk)] *)
Definition addImpl (input_chunk : Chunk Field) : M state (Block Field) :=
  if negb (hasChunkInfo input_chunk)
  then swapAndReturn
  else
    match getInfoFromChunkBlock input_chunk with
    | None => throw NULL_DEREFERENCE
    | Some blocks =>
        appendAll blocks ;;;
        swapAndReturn
    end.

(** [add(Chunk &&)] *)
Definition add (input_chunk : Chunk Field) : M state (Block Field) :=
  addImpl input_chunk.

End WithColumns.
End NewSquashingBlockTransform.

(** ** BalanceBlockTransform *)

Module BalanceBlockTransform.
Section WithThresholds.
Context {Field : Type} `{IColumn Field}.
Variable header : Block Field.
Variables min_block_size_rows min_block_size_bytes : Z.
Variable memory_tracker : MemoryTracker.
(** How many reads of [get()] one wait of the model may take. *)
Variable budget : nat.

Local Open Scope monad_scope.

(** The mutable field [blocks_to_merge_vec] and the number of the next read
    of the memory tracker. [accumulated_block] is never used by this class. *)
Record state : Type := mkState {
  blocks_to_merge_vec : list (Block Field);
  reads : nat
}.

Definition init : state := mkState [] O.

Definition setBlocks (blocks : list (Block Field)) : M state unit :=
  fun s => Ok (tt, mkState blocks (reads s)).

(** The call [checkAndWaitMemoryAvailability(bytes)] on this object. *)
Definition memoryGate (bytes : Z) : M state unit :=
  fun s =>
    match checkAndWaitMemoryAvailability memory_tracker budget bytes (reads s) with
    | Some k => Ok (tt, mkState (blocks_to_merge_vec s) k)
    | None => Spin
    end.

(** [isEnoughSize(size_t rows, size_t bytes)] *)
Definition isEnoughSize (rows bytes : Z) : bool :=
  (negb (negb (min_block_size_rows =? 0)) && negb (negb (min_block_size_bytes =? 0)))
  || (negb (min_block_size_rows =? 0) && (rows >=? min_block_size_rows))
  || (negb (min_block_size_bytes =? 0) && (bytes >=? min_block_size_bytes)).

(** Modelled from the spec: [Block::bytes()] is declared in Core/Block.h;
    the byte size of a batch is the sum of the byte sizes of its columns. *)
Definition Block_bytes (block : Block Field) : Z :=
  fold_left (fun res c => size_t_add res (byteSize (column c))) block 0.

(** The loop of [isEnoughSize(const std::vector<Block> &)]. *)
Fixpoint sizesOfBlocks (blocks : list (Block Field)) (rows0 bytes0 : Z) : Z * Z :=
  match blocks with
  | [] => (rows0, bytes0)
  | block :: blocks' =>
      sizesOfBlocks blocks' (size_t_add rows0 (rows block))
        (size_t_add bytes0 (Block_bytes block))
  end.

(** [isEnoughSize(blocks_to_merge_vec)] *)
Definition isEnoughSizeBlocks : M state bool :=
  s <- get_state ;;
  let (rows0, bytes0) := sizesOfBlocks (blocks_to_merge_vec s) 0 0 in
  memoryGate bytes0 ;;;
  ret (isEnoughSize rows0 bytes0).

(** [convertToChunk(blocks_to_merge_vec)] *)
Definition convertToChunk : M state (Chunk Field) :=
  s <- get_state ;;
  match blocks_to_merge_vec s with
  | [] => ret emptyChunk
  | _ =>
      let info := BlocksToSquash (blocks_to_merge_vec s) in
      setBlocks [] ;;;
      lift (newChunk (cloneEmptyColumns header) 0 (Some info))
  end.

(** [addImpl(input_block)] *)
Definition addImpl (input_block : Block Field) : M state (Chunk Field) :=
  input_chunk <- lift (newChunk (getColumns input_block) (rows input_block) None) ;;
  if negb (Chunk_bool input_chunk)
  then convertToChunk
  else
    enough_before <- isEnoughSizeBlocks ;;
    (if enough_before : bool then setBlocks [] else ret tt) ;;;
    (if Chunk_bool input_chunk
     then s <- get_state ;; setBlocks (blocks_to_merge_vec s ++ [input_block])
     else ret tt) ;;;
    enough_after <- isEnoughSizeBlocks ;;
    if enough_after : bool
    then convertToChunk
    else ret input_chunk.

(** [add(Block &&)] *)
Definition add (input_block : Block Field) : M state (Chunk Field) :=
  addImpl input_block.

(** [isDataLeft()] *)
Definition isDataLeft (s : state) : bool :=
  match blocks_to_merge_vec s with [] => false | _ => true end.

End WithThresholds.
End BalanceBlockTransform.

(** ** Streams and what they carry *)

Section Streams.
Context {Field : Type} `{IColumn Field}.

(** The chunk that [BalanceTransform::addImpl] and
    [BalanceBlockTransform::addImpl] make of their input block. *)
Definition chunkOf (block : Block Field) : Chunk Field :=
  mkChunk (getColumns block) (rows block) None.

(** The chunks a chunk hands over in its [ChunksToSquash] info. *)
Definition markerChunks (chunk : Chunk Field) : list (Chunk Field) :=
  match getChunkInfo chunk with
  | Some (ChunksToSquash chunks _) => chunks
  | _ => []
  end.

(** The blocks a chunk hands over in its [BlocksToSquash] info. *)
Definition markerBlocks (chunk : Chunk Field) : list (Block Field) :=
  match getChunkInfo chunk with
  | Some (BlocksToSquash blocks) => blocks
  | _ => []
  end.

(** The blocks of a stream that are not the sentinel. *)
Definition withoutSentinels (inputs : list (Block Field)) : list (Block Field) :=
  filter Block_bool inputs.

(** The chunks returned by [BalanceTransform::add] on each block of a
    stream, call by call. *)
Fixpoint balanceRun (header : Block Field) (min_rows min_bytes : Z)
    (memory_tracker : MemoryTracker) (budget : nat) (inputs : list (Block Field))
  : M (@BalanceTransform.state Field) (list (Chunk Field)) :=
  match inputs with
  | [] => ret []
  | input_block :: inputs' =>
      bind (BalanceTransform.add header min_rows min_bytes memory_tracker budget
              input_block)
        (fun returned =>
           bind (balanceRun header min_rows min_bytes memory_tracker budget inputs')
             (fun rest => ret (returned :: rest)))
  end.

(** What [BalanceTransform::add] leaves behind: nothing pending, or a list
    that is not enough. *)
Definition belowThreshold (min_rows min_bytes : Z)
    (s : @BalanceTransform.state Field) : Prop :=
  BalanceTransform.chunks_to_merge_vec s = []
  \/ BalanceTransform.pendingEnough min_rows min_bytes
       (BalanceTransform.chunks_to_merge_vec s) = false.

(** The columns a block is left with when the empty columns in front are
    taken away. *)
Fixpoint skipEmptyColumns (block : Block Field) : Block Field :=
  match block with
  | [] => []
  | c :: block' =>
      if size (column c) =? 0 then skipEmptyColumns block' else c :: block'
  end.

(** Some column after the first one that is not empty has another size than
    that one. *)
Definition sizesDiffer (block : Block Field) : bool :=
  match skipEmptyColumns block with
  | [] => false
  | c :: rest => negb (forallb (fun x => size (column x) =? size (column c)) rest)
  end.

(** The names [NewSquashingTransform] gives the columns it makes of
    [data_types], from column [i] on. *)
Fixpoint numberedColumns (types : DataTypes) (i : nat) : list (DataType * string) :=
  match types with
  | [] => []
  | t :: types' => (t, (t ++ toString i)%string) :: numberedColumns types' (S i)
  end.

(** The balancer feeding a [NewSquashingTransform] with every chunk it
    returns, with or without info. *)
Fixpoint pipelineAll (header : Block Field) (min_rows min_bytes : Z)
    (memory_tracker : MemoryTracker) (budget : nat) (inputs : list (Block Field))
    (s : @BalanceTransform.state Field) (squashing : Block Field)
  : outcome (list (Block Field) * (@BalanceTransform.state Field * Block Field)) :=
  match inputs with
  | [] => Ok ([], (s, squashing))
  | input_block :: inputs' =>
      match BalanceTransform.add header min_rows min_bytes memory_tracker budget
              input_block s with
      | Ok (chunk, s') =>
          match NewSquashingTransform.add chunk squashing with
          | Ok (block, squashing') =>
              match pipelineAll header min_rows min_bytes memory_tracker budget
                      inputs' s' squashing' with
              | Ok (rest, final) => Ok (block :: rest, final)
              | Throw e => Throw e
              | Spin => Spin
              end
          | Throw e => Throw e
          | Spin => Spin
          end
      | Throw e => Throw e
      | Spin => Spin
      end
  end.

End Streams.

(** ** Sample data *)

(** A block of [UInt64] columns: one column per list, all of them named alike
    (the squashers never look a column up by name). *)
Definition blockOf (cols : list (list Z)) : Block Z :=
  map (fun c => mkColumnWithTypeAndName c "UInt64"%string "x"%string) cols.

(** Two columns, no rows: the layout of the samples. *)
Definition sample_header : Block Z := blockOf [[]; []].

(** Two rows and five rows; with [min_block_size_rows = 4] the first is
    small and the second is enough on its own. *)
Definition small_block : Block Z := blockOf [[1; 2]; [11; 12]].
Definition large_block : Block Z := blockOf [[3; 4; 5; 6; 7]; [13; 14; 15; 16; 17]].

(** Columns of different sizes, the empty one first and the empty one last. *)
Definition ragged_block_empty_first : Block Z := blockOf [[]; [1; 2]].
Definition ragged_block_empty_last : Block Z := blockOf [[1; 2]; []].

(** The chunk the balancer makes of [small_block], and a balancer that holds
    it as its only pending chunk. *)
Definition small_chunk : Chunk Z := mkChunk (getColumns small_block) 2 None.
Definition one_pending : BalanceTransform.state :=
  BalanceTransform.mkState [small_chunk] (getDataTypes small_block) O [].

(** The seven rows of [small_block] and [large_block] in one block, as the
    squasher behind the balancer names its columns. *)
Definition merged_block : Block Z :=
  [mkColumnWithTypeAndName [1; 2; 3; 4; 5; 6; 7] "UInt64"%string "UInt640"%string;
   mkColumnWithTypeAndName [11; 12; 13; 14; 15; 16; 17] "UInt64"%string "UInt641"%string].

(** The marker the balancer makes of [small_block] and [large_block]. *)
Definition sample_marker : Chunk Z :=
  mkChunk [[]; []] 0
    (Some (ChunksToSquash
             [small_chunk; mkChunk (getColumns large_block) 5 None]
             (getDataTypes sample_header))).

(** A memory tracker without a hard limit, and one with a limit of 100 bytes
    of which 10 are in use at every read. *)
Definition unlimited_tracker : MemoryTracker := mkMemoryTracker 0 (fun _ => 10).
Definition limited_tracker : MemoryTracker := mkMemoryTracker 100 (fun _ => 10).

(** A memory tracker with a limit of 100 bytes: 10 bytes in use at the first
    two reads, then 3 bytes given back beyond what was taken. *)
Definition falling_tracker : MemoryTracker :=
  mkMemoryTracker 100 (fun n => if (n <? 2)%nat then 10 else -3).

(** A memory tracker with a limit of 100 bytes: 10 bytes in use at the first
    two reads, then 100 bytes given back beyond what was taken. *)
Definition draining_tracker : MemoryTracker :=
  mkMemoryTracker 100 (fun n => if (n <? 2)%nat then 10 else -100).

(** The balancer after [small_block], [large_block] and the sentinel, with
    no hard limit and [min_block_size_rows = 4]. *)
Definition drained_balancer : BalanceTransform.state :=
  BalanceTransform.mkState [] (getDataTypes large_block) O
    [BalanceTransform.MemoryChecked 0;
     BalanceTransform.PendingPushed small_chunk;
     BalanceTransform.MemoryChecked 32;
     BalanceTransform.MemoryChecked 32;
     BalanceTransform.PendingPushed (mkChunk (getColumns large_block) 5 None);
     BalanceTransform.MemoryChecked 112;
     BalanceTransform.PendingCleared].

(** A marker whose only chunk has no columns, and the marker
    [BalanceBlockTransform] makes of [small_block] and [large_block]. *)
Definition hollow_marker : Chunk Z :=
  mkChunk [] 0 (Some (ChunksToSquash [emptyChunk] [])).
Definition sample_block_marker : Chunk Z :=
  mkChunk [[]; []] 0 (Some (BlocksToSquash [small_block; large_block])).

(** The marker the balancer makes of a block of one column followed by a
    block of two columns, and the block [NewSquashingTransform] makes of it. *)
Definition uneven_marker : Chunk Z :=
  mkChunk [[]] 0
    (Some (ChunksToSquash [mkChunk [[1]] 1 None; mkChunk [[2]; [3]] 1 None]
             ["UInt64"%string; "UInt64"%string])).
Definition uneven_squashed : Block Z :=
  [mkColumnWithTypeAndName [1; 2] "UInt64"%string "UInt640"%string].

(** * Properties *)

Ltac unfold_monad :=
  unfold bind, ret, lift, get_state, put_state, throw in *.

(** ** Blocks and columns *)

Section BlockFacts.
Context {Field : Type}.
Implicit Types (block accumulated lhs rhs : Block Field) (source : Columns Field).

Lemma Block_bool_nil : Block_bool (@nil (ColumnWithTypeAndName Field)) = false.
Proof. reflexivity. Qed.

Lemma Block_bool_cons c block : Block_bool (c :: block) = true.
Proof. reflexivity. Qed.

Lemma columnData_nil i : columnData i (@nil (ColumnWithTypeAndName Field)) = [].
Proof. destruct i; reflexivity. Qed.

Lemma rows_columnData block : rows block = size (columnData 0 block).
Proof. destruct block; reflexivity. Qed.

Lemma size_app (a b : Column Field) : size (a ++ b) = size a + size b.
Proof. unfold size. rewrite length_app. lia. Qed.

Lemma totalRows_concatColumn (blocks : list (Block Field)) :
  totalRows blocks = size (concatColumn 0 blocks).
Proof.
  induction blocks as [|b blocks IH]; [reflexivity|].
  cbn [totalRows fold_right concatColumn flat_map].
  fold (totalRows blocks). fold (concatColumn 0 blocks).
  rewrite size_app, IH, rows_columnData. reflexivity.
Qed.

Lemma concatColumn_app i (l1 l2 : list (Block Field)) :
  concatColumn i (l1 ++ l2) = concatColumn i l1 ++ concatColumn i l2.
Proof. unfold concatColumn. apply flat_map_app. Qed.

Lemma blocksHaveEqualStructure_iff lhs rhs :
  blocksHaveEqualStructure lhs rhs = true <-> structure lhs = structure rhs.
Proof.
  revert rhs; induction lhs as [|l lhs IH]; intros [|r rhs];
    cbn [blocksHaveEqualStructure structure map];
    try (split; discriminate); [tauto|].
  fold (structure lhs); fold (structure rhs).
  rewrite !andb_true_iff, !String.eqb_eq, IH.
  split; [intros [[-> ->] ->]; reflexivity | intros E; inversion E; auto].
Qed.

Lemma structure_length lhs rhs :
  structure lhs = structure rhs -> length lhs = length rhs.
Proof.
  intros E. apply (f_equal (@length _)) in E.
  unfold structure in E. now rewrite !length_map in E.
Qed.

(** What the shared loop of [append] computes when the source has a column
    for every accumulated column. *)
Lemma insertRangeFromColumns_total accumulated source :
  (length accumulated <= length source)%nat ->
  exists appended,
    insertRangeFromColumns accumulated source = Ok appended
    /\ structure appended = structure accumulated
    /\ forall i, (i < length accumulated)%nat ->
         columnData i appended = columnData i accumulated ++ nth i source [].
Proof.
  revert source; induction accumulated as [|a accumulated IH]; intros source Hlen.
  - exists []. cbn. repeat split. intros i Hi. inversion Hi.
  - destruct source as [|s source]; [cbn in Hlen; lia|].
    destruct (IH source) as (rest & E & Hs & Hd); [cbn in Hlen; lia|].
    cbn [insertRangeFromColumns]. rewrite E.
    eexists; split; [reflexivity|]. split.
    + cbn [structure map]. fold (structure rest). fold (structure accumulated).
      now rewrite Hs.
    + intros [|i] Hi; [reflexivity|].
      cbn in Hi. apply (Hd i). lia.
Qed.

Lemma insertRangeFromColumns_data accumulated source appended :
  insertRangeFromColumns accumulated source = Ok appended ->
  length source = length accumulated ->
  forall i, columnData i appended = columnData i accumulated ++ nth i source [].
Proof.
  intros E Hlen i.
  destruct (insertRangeFromColumns_total accumulated source) as (r & E' & Hs & Hd);
    [lia|].
  rewrite E in E'. injection E' as <-.
  destruct (Nat.lt_ge_cases i (length accumulated)) as [Hi|Hi]; [auto|].
  unfold columnData, getColumns.
  rewrite !nth_overflow; [reflexivity | | |]; rewrite ?length_map; try lia.
  apply structure_length in Hs. lia.
Qed.

Lemma insertRangeFromColumns_structure accumulated source appended :
  insertRangeFromColumns accumulated source = Ok appended ->
  structure appended = structure accumulated.
Proof.
  revert source appended; induction accumulated as [|a accumulated IH];
    intros source appended E; cbn in E.
  - now injection E as <-.
  - destruct source as [|s source]; [discriminate|].
    destruct (insertRangeFromColumns accumulated source) as [rest| |] eqn:Er;
      try discriminate.
    injection E as <-. cbn [structure map].
    fold (structure rest). fold (structure accumulated). now rewrite (IH _ _ Er).
Qed.

Lemma consistentRows_iff block :
  consistentRows block = true <->
  Forall (fun c => size (column c) = rows block) block.
Proof.
  unfold consistentRows. rewrite forallb_forall, Forall_forall.
  split; intros Hc c Hin; specialize (Hc c Hin); lia.
Qed.

End BlockFacts.

(** ** SquashingTransform: one call of [add] *)

Section SquashingFacts.
Context {Field : Type} `{IColumn Field}.
Variables min_rows min_bytes : Z.

Abbreviation isEnoughSizeBlock := (SquashingTransform.isEnoughSizeBlock min_rows min_bytes).
Abbreviation add := (SquashingTransform.add min_rows min_bytes).
Abbreviation run := (SquashingTransform.run min_rows min_bytes).

(** [append] without the monad. *)
Lemma squashing_append_eq (input accumulated : Block Field) :
  SquashingTransform.append input accumulated =
  match accumulated with
  | [] => Ok (tt, input)
  | _ :: _ =>
      if blocksHaveEqualStructure input accumulated
      then match insertRangeFromColumns accumulated (getColumns input) with
           | Ok appended => Ok (tt, appended)
           | Throw e => Throw e
           | Spin => Spin
           end
      else Throw ASSERTION_FAILED
  end.
Proof.
  unfold SquashingTransform.append. unfold_monad.
  destruct accumulated as [|a accumulated]; [reflexivity|].
  rewrite Block_bool_cons. cbn [negb].
  destruct (blocksHaveEqualStructure input (a :: accumulated)); cbn [negb];
    [|reflexivity].
  destruct (insertRangeFromColumns (a :: accumulated) (getColumns input));
    reflexivity.
Qed.

(** [add] without the monad: the five ways through [addImpl]. *)
Lemma squashing_add_eq (input accumulated : Block Field) :
  add input accumulated =
  match input with
  | [] => Ok (accumulated, [])
  | _ :: _ =>
      match isEnoughSizeBlock input with
      | Ok true =>
          match accumulated with
          | [] => Ok (input, [])
          | _ :: _ => Ok (accumulated, input)
          end
      | Ok false =>
          match isEnoughSizeBlock accumulated with
          | Ok true => Ok (accumulated, input)
          | Ok false =>
              match SquashingTransform.append input accumulated with
              | Ok (_, appended) =>
                  match isEnoughSizeBlock appended with
                  | Ok true => Ok (appended, [])
                  | Ok false => Ok ([], appended)
                  | Throw e => Throw e
                  | Spin => Spin
                  end
              | Throw e => Throw e
              | Spin => Spin
              end
          | Throw e => Throw e
          | Spin => Spin
          end
      | Throw e => Throw e
      | Spin => Spin
      end
  end.
Proof.
  unfold SquashingTransform.add, SquashingTransform.addImpl,
    SquashingTransform.swapAndReturn.
  destruct input as [|c input]; [reflexivity|].
  rewrite Block_bool_cons. cbn [negb]. unfold_monad.
  destruct (isEnoughSizeBlock (c :: input)) as [[|]| |]; try reflexivity.
  - destruct accumulated; reflexivity.
  - destruct (isEnoughSizeBlock accumulated) as [[|]| |]; try reflexivity.
    destruct (SquashingTransform.append (c :: input) accumulated) as [[[] appended]| |];
      try reflexivity.
    destruct (isEnoughSizeBlock appended) as [[|]| |]; reflexivity.
Qed.

(** The scan of [isEnoughSize(const Block &)] goes through when the columns
    that are left have the size seen so far. *)
Lemma sizesOfColumns_consistent (block : Block Field) n :
  Forall (fun c => size (column c) = n) block ->
  forall rows0 bytes, rows0 = 0 \/ rows0 = n ->
  exists bytes', SquashingTransform.sizesOfColumns block rows0 bytes
                 = Ok (match block with [] => rows0 | _ => n end, bytes').
Proof.
  induction 1 as [|c block Hc _ IH]; intros rows0 bytes Hr.
  - eexists; reflexivity.
  - cbn [SquashingTransform.sizesOfColumns]. rewrite Hc.
    destruct (rows0 =? 0) eqn:E0.
    + destruct (IH n (size_t_add bytes (byteSize (column c)))) as (b' & Eb); [auto|].
      exists b'. rewrite Eb. destruct block; reflexivity.
    + destruct Hr as [->| ->]; [discriminate|].
      rewrite Z.eqb_refl. cbn [negb].
      destruct (IH n (size_t_add bytes (byteSize (column c)))) as (b' & Eb); [auto|].
      exists b'. rewrite Eb. destruct block; reflexivity.
Qed.

(** The scan throws on the first column whose size is not the non-zero size
    seen so far. *)
Lemma sizesOfColumns_mismatch (block : Block Field) :
  forall rows0 bytes, rows0 <> 0 ->
  Exists (fun c => size (column c) <> rows0) block ->
  SquashingTransform.sizesOfColumns block rows0 bytes
  = Throw SIZES_OF_COLUMNS_DOESNT_MATCH.
Proof.
  induction block as [|c block IH]; intros rows0 bytes Hr Hex.
  - inversion Hex.
  - cbn [SquashingTransform.sizesOfColumns].
    destruct (rows0 =? 0) eqn:E0; [lia|].
    destruct (rows0 =? size (column c)) eqn:Ec; cbn [negb]; [|reflexivity].
    apply IH; [assumption|].
    inversion Hex; subst; [lia | assumption].
Qed.

Lemma isEnoughSizeBlock_consistent (block : Block Field) :
  consistentRows block = true ->
  exists enough, isEnoughSizeBlock block = Ok enough.
Proof.
  intros Hc. apply consistentRows_iff in Hc.
  destruct (sizesOfColumns_consistent block (rows block) Hc 0 0) as (b' & E);
    [auto|].
  unfold SquashingTransform.isEnoughSizeBlock. rewrite E. eexists; reflexivity.
Qed.

(** Nothing is lost or reordered by one call: what comes back, followed by
    what stays in the buffer, is what was in the buffer followed by the input. *)
Lemma squashing_add_data (input accumulated returned accumulated' : Block Field) :
  add input accumulated = Ok (returned, accumulated') ->
  forall i, columnData i returned ++ columnData i accumulated'
            = columnData i accumulated ++ columnData i input.
Proof.
  rewrite squashing_add_eq. intros E i.
  destruct input as [|c input].
  { injection E as <- <-. reflexivity. }
  destruct (isEnoughSizeBlock (c :: input)) as [[|]| |]; try discriminate.
  { destruct accumulated; injection E as <- <-;
      rewrite ?columnData_nil, ?app_nil_r; reflexivity. }
  destruct (isEnoughSizeBlock accumulated) as [[|]| |]; try discriminate.
  { injection E as <- <-. reflexivity. }
  rewrite squashing_append_eq in E.
  assert (Happ : forall appended,
             match accumulated with
             | [] => Ok (tt, c :: input)
             | _ :: _ =>
                 if blocksHaveEqualStructure (c :: input) accumulated
                 then match insertRangeFromColumns accumulated (getColumns (c :: input)) with
                      | Ok appended => Ok (tt, appended)
                      | Throw e => Throw e
                      | Spin => Spin
                      end
                 else Throw ASSERTION_FAILED
             end = Ok (tt, appended) ->
             columnData i appended
             = columnData i accumulated ++ columnData i (c :: input)).
  { intros appended Ea. destruct accumulated as [|a accumulated].
    - injection Ea as <-. now rewrite columnData_nil.
    - destruct (blocksHaveEqualStructure (c :: input) (a :: accumulated)) eqn:Es;
        [|discriminate].
      destruct (insertRangeFromColumns (a :: accumulated) (getColumns (c :: input)))
        as [r| |] eqn:Er; try discriminate.
      injection Ea as <-.
      apply blocksHaveEqualStructure_iff, structure_length in Es.
      apply (insertRangeFromColumns_data _ _ _ Er).
      unfold getColumns. rewrite length_map. exact Es. }
  destruct (match accumulated with [] => _ | _ :: _ => _ end)
    as [[[] appended]| |] eqn:Ea; try discriminate.
  specialize (Happ appended eq_refl).
  destruct (isEnoughSizeBlock appended) as [[|]| |]; try discriminate;
    injection E as <- <-; rewrite ?columnData_nil, ?app_nil_r; auto.
Qed.

(** Batches of one layout, in the words of the propositions. *)
Lemma batchOf_cons header c (block : Block Field) :
  batchOf header (c :: block) = true <->
  structure (c :: block) = structure header
  /\ Forall (fun x => size (column x) = size (column c)) (c :: block).
Proof.
  cbn [batchOf]. rewrite andb_true_iff, blocksHaveEqualStructure_iff,
    consistentRows_iff. reflexivity.
Qed.

Lemma batchOf_intro header (block : Block Field) n :
  structure block = structure header ->
  Forall (fun x => size (column x) = n) block ->
  batchOf header block = true.
Proof.
  intros Hs Hn. destruct block as [|c block]; [reflexivity|].
  apply batchOf_cons. split; [assumption|].
  inversion Hn as [|? ? Hc _]; subst. exact Hn.
Qed.

Lemma isEnoughSizeBlock_batch header (block : Block Field) :
  batchOf header block = true ->
  exists enough, isEnoughSizeBlock block = Ok enough.
Proof.
  destruct block as [|c block]; [intros _; eexists; reflexivity|].
  cbn [batchOf]. rewrite andb_true_iff. intros [_ Hc].
  now apply isEnoughSizeBlock_consistent.
Qed.

(** Appending a batch to a batch of the same layout gives a batch of that
    layout. *)
Lemma insertRangeFromColumns_sizes (accumulated : Block Field) source appended n m :
  insertRangeFromColumns accumulated source = Ok appended ->
  Forall (fun x => size (column x) = n) accumulated ->
  Forall (fun s => size s = m) source ->
  Forall (fun x => size (column x) = n + m) appended.
Proof.
  revert source appended; induction accumulated as [|a accumulated IH];
    intros source appended E Hn Hm; cbn in E.
  - injection E as <-. constructor.
  - destruct source as [|s source]; [discriminate|].
    destruct (insertRangeFromColumns accumulated source) as [rest| |] eqn:Er;
      try discriminate.
    injection E as <-.
    inversion Hn; subst. inversion Hm; subst.
    constructor; [cbn; rewrite size_app; lia | eauto].
Qed.

Lemma squashing_append_batch header (input accumulated : Block Field) :
  batchOf header accumulated = true ->
  batchOf header input = true ->
  input <> [] ->
  exists appended,
    SquashingTransform.append input accumulated = Ok (tt, appended)
    /\ batchOf header appended = true.
Proof.
  intros Ha Hi Hne. rewrite squashing_append_eq.
  destruct accumulated as [|a accumulated]; [eauto|].
  destruct input as [|c input]; [congruence|].
  apply batchOf_cons in Ha, Hi. destruct Ha as [Hsa Hna], Hi as [Hsi Hni].
  assert (Es : structure (c :: input) = structure (a :: accumulated)) by congruence.
  rewrite (proj2 (blocksHaveEqualStructure_iff _ _) Es).
  destruct (insertRangeFromColumns_total (a :: accumulated) (getColumns (c :: input)))
    as (appended & E & Hs & _).
  { unfold getColumns. rewrite length_map.
    apply structure_length in Es. lia. }
  rewrite E. exists appended. split; [reflexivity|].
  apply batchOf_intro with (n := size (column a) + size (column c)).
  - congruence.
  - eapply insertRangeFromColumns_sizes; [exact E | exact Hna |].
    unfold getColumns. apply Forall_map. exact Hni.
Qed.

(** On batches of one layout [add] never throws, and the buffer stays a
    batch of that layout. *)
Lemma squashing_add_total header (input accumulated : Block Field) :
  batchOf header accumulated = true ->
  batchOf header input = true ->
  exists returned accumulated',
    add input accumulated = Ok (returned, accumulated')
    /\ batchOf header accumulated' = true.
Proof.
  intros Ha Hi. rewrite squashing_add_eq.
  destruct input as [|c input]; [eauto|].
  destruct (isEnoughSizeBlock_batch _ _ Hi) as ([|] & ->).
  { destruct accumulated; eauto. }
  destruct (isEnoughSizeBlock_batch _ _ Ha) as ([|] & ->); [eauto|].
  destruct (squashing_append_batch header (c :: input) accumulated Ha Hi)
    as (appended & -> & Hb); [discriminate|].
  destruct (isEnoughSizeBlock_batch _ _ Hb) as ([|] & ->); eauto.
Qed.

(** ** SquashingTransform: a whole stream *)

Lemma squashing_run_cons input inputs (accumulated : Block Field) :
  run (input :: inputs) accumulated =
  match add input accumulated with
  | Ok (returned, accumulated') =>
      match run inputs accumulated' with
      | Ok (rest, final) => Ok (returned :: rest, final)
      | Throw e => Throw e
      | Spin => Spin
      end
  | Throw e => Throw e
  | Spin => Spin
  end.
Proof.
  cbn [SquashingTransform.run]. unfold_monad.
  destruct (add input accumulated) as [[returned accumulated']| |]; reflexivity.
Qed.

(** Whenever a stream goes through, the returned blocks followed by the
    buffer hold the old buffer followed by the inputs, column by column. *)
Lemma squashing_run_data inputs :
  forall (accumulated : Block Field) returned final,
  run inputs accumulated = Ok (returned, final) ->
  forall i, concatColumn i returned ++ columnData i final
            = columnData i accumulated ++ concatColumn i inputs.
Proof.
  induction inputs as [|input inputs IH]; intros accumulated returned final E i.
  - injection E as <- <-. cbn. now rewrite app_nil_r.
  - rewrite squashing_run_cons in E.
    destruct (add input accumulated) as [[r accumulated']| |] eqn:Ea; try discriminate.
    destruct (run inputs accumulated') as [[rest final']| |] eqn:Er; try discriminate.
    injection E as <- <-.
    cbn [concatColumn flat_map]. fold (concatColumn i rest). fold (concatColumn i inputs).
    rewrite <- app_assoc, (IH _ _ _ Er i), !app_assoc.
    f_equal. apply (squashing_add_data _ _ _ _ Ea).
Qed.

Lemma squashing_run_total header inputs :
  forall (accumulated : Block Field),
  batchOf header accumulated = true ->
  forallb (batchOf header) inputs = true ->
  exists returned final,
    run inputs accumulated = Ok (returned, final)
    /\ batchOf header final = true.
Proof.
  induction inputs as [|input inputs IH]; intros accumulated Ha Hin.
  - exists [], accumulated. split; [reflexivity | assumption].
  - cbn [forallb] in Hin. apply andb_true_iff in Hin. destruct Hin as [Hi Hin].
    rewrite squashing_run_cons.
    destruct (squashing_add_total header input accumulated Ha Hi)
      as (r & accumulated' & -> & Ha').
    destruct (IH accumulated' Ha' Hin) as (rest & final & -> & Hf).
    eauto.
Qed.

Lemma squashing_run_app inputs1 inputs2 :
  forall (accumulated : Block Field) returned1 middle,
  run inputs1 accumulated = Ok (returned1, middle) ->
  run (inputs1 ++ inputs2) accumulated =
  match run inputs2 middle with
  | Ok (returned2, final) => Ok (returned1 ++ returned2, final)
  | Throw e => Throw e
  | Spin => Spin
  end.
Proof.
  induction inputs1 as [|input inputs1 IH]; intros accumulated returned1 middle E.
  - injection E as <- <-. cbn [app].
    destruct (run inputs2 accumulated) as [[? ?]| |]; reflexivity.
  - rewrite squashing_run_cons in E. cbn [app]. rewrite squashing_run_cons.
    destruct (add input accumulated) as [[r accumulated']| |]; try discriminate.
    destruct (run inputs1 accumulated') as [[rest m]| |] eqn:Er; try discriminate.
    injection E as <- <-.
    rewrite (IH _ _ _ Er).
    destruct (run inputs2 m) as [[? ?]| |]; reflexivity.
Qed.

End SquashingFacts.

(** ** SquashingTransform: the propositions of the specification *)

Section SquashingTheorems.
Context {Field : Type} `{IColumn Field}.
Variables min_rows min_bytes : Z.

Abbreviation isEnoughSizeBlock := (SquashingTransform.isEnoughSizeBlock min_rows min_bytes).
Abbreviation add := (SquashingTransform.add min_rows min_bytes).
Abbreviation run := (SquashingTransform.run min_rows min_bytes).

Lemma squashing_run_sentinel_drains (inputs : list (Block Field)) :
  forall accumulated returned final,
  run (inputs ++ [[]]) accumulated = Ok (returned, final) -> final = [].
Proof.
  induction inputs as [|input inputs IH]; intros accumulated returned final E.
  - cbn [app SquashingTransform.run] in E. unfold_monad.
    rewrite (squashing_add_eq min_rows min_bytes [] accumulated) in E.
    now injection E as _ <-.
  - cbn [app] in E. rewrite squashing_run_cons in E.
    destruct (add input accumulated) as [[r accumulated']| |]; try discriminate.
    destruct (run (inputs ++ [[]]) accumulated') as [[rest final']| |] eqn:Er;
      try discriminate.
    injection E as _ <-. eapply IH; exact Er.
Qed.

(** C1. Order preservation and no data loss. Whenever a stream followed by
    the sentinel goes through [add] without an exception, every column of
    the returned blocks, read in the order of the calls, is that column of
    the inputs read in the order of the inputs, the rows of the outputs add
    up to the rows of the inputs, and the buffer is empty at the end; and a
    stream of batches of one layout does go through without an exception. *)
Theorem squashing_preserves_order (inputs : list (Block Field)) :
  (forall returned final,
      run (inputs ++ [[]]) SquashingTransform.init = Ok (returned, final) ->
      final = []
      /\ (forall i, concatColumn i returned = concatColumn i inputs)
      /\ totalRows returned = totalRows inputs)
  /\ (forall header : Block Field,
         forallb (batchOf header) inputs = true ->
         exists returned,
           run (inputs ++ [[]]) SquashingTransform.init = Ok (returned, [])).
Proof.
  split.
  - intros returned final E.
    pose proof (squashing_run_sentinel_drains _ _ _ _ E) as ->.
    assert (Hdata : forall i, concatColumn i returned = concatColumn i inputs).
    { intros i.
      pose proof (squashing_run_data min_rows min_bytes _ _ _ _ E i) as D.
      rewrite columnData_nil, app_nil_r in D.
      unfold SquashingTransform.init in D. rewrite columnData_nil in D.
      cbn [app] in D. rewrite D, concatColumn_app.
      cbn [concatColumn flat_map]. now rewrite columnData_nil, !app_nil_r. }
    split; [reflexivity|]. split; [exact Hdata|].
    now rewrite !totalRows_concatColumn, Hdata.
  - intros header Hin.
    assert (Hall : forallb (batchOf header) (inputs ++ [[]]) = true).
    { rewrite forallb_app, Hin. reflexivity. }
    destruct (squashing_run_total min_rows min_bytes header (inputs ++ [[]])
                SquashingTransform.init eq_refl Hall) as (returned & final & E & _).
    pose proof (squashing_run_sentinel_drains _ _ _ _ E) as ->.
    exists returned. exact E.
Qed.

(** C2, as the code has it. A block returned by a call on a block that is
    not the sentinel is empty (not ready), or is enough, or is the
    accumulated block given back, whatever its size, because the block
    just read is enough on its own. *)
Theorem squashing_returned_enough_or_displaced
    (input accumulated returned accumulated' : Block Field) :
  input <> [] ->
  add input accumulated = Ok (returned, accumulated') ->
  returned = []
  \/ isEnoughSizeBlock returned = Ok true
  \/ (returned = accumulated /\ accumulated <> []
      /\ isEnoughSizeBlock input = Ok true /\ accumulated' = input).
Proof.
  intros Hne E. rewrite squashing_add_eq in E.
  destruct input as [|c input]; [congruence|].
  destruct (isEnoughSizeBlock (c :: input)) as [[|]| |] eqn:Ei; try discriminate.
  - destruct accumulated as [|a accumulated]; injection E as <- <-.
    + right; left. exact Ei.
    + right; right. repeat split. discriminate.
  - destruct (isEnoughSizeBlock accumulated) as [[|]| |] eqn:Ea; try discriminate.
    + injection E as <- <-. right; left. exact Ea.
    + destruct (SquashingTransform.append (c :: input) accumulated)
        as [[[] appended]| |]; try discriminate.
      destruct (isEnoughSizeBlock appended) as [[|]| |] eqn:Ep; try discriminate;
        injection E as <- <-; auto.
Qed.

(** C7. The fast path: a block that is enough, arriving at an empty
    buffer, is returned as it is, and the buffer stays empty. *)
Theorem squashing_fast_path (input : Block Field) :
  isEnoughSizeBlock input = Ok true ->
  add input [] = Ok (input, []).
Proof.
  intros Ei. rewrite squashing_add_eq.
  destruct input as [|c input]; [reflexivity|].
  now rewrite Ei.
Qed.

End SquashingTheorems.

Lemma squashing_preserves_order_witness :
  forallb (batchOf sample_header) [small_block; small_block; large_block; small_block] = true
  /\ exists returned,
       SquashingTransform.run 4 0
         ([small_block; small_block; large_block; small_block] ++ [[]])
         SquashingTransform.init = Ok (returned, [])
       /\ (forall i, concatColumn i returned
                     = concatColumn i [small_block; small_block; large_block; small_block])
       /\ totalRows returned
          = totalRows [small_block; small_block; large_block; small_block].
Proof.
  destruct (squashing_preserves_order 4 0
              [small_block; small_block; large_block; small_block])
    as [Hdata Htotal].
  split; [reflexivity|].
  destruct (Htotal sample_header eq_refl) as (returned & E).
  exists returned. split; [exact E|].
  destruct (Hdata returned [] E) as (_ & Hcolumns & Hrows).
  split; [exact Hcolumns | exact Hrows].
Defined.

(** C2 as it is written fails: with [min_block_size_rows = 4] the second
    call, on a block of five rows, returns the two rows accumulated before,
    and it is not the call on the sentinel. *)
Lemma squashing_small_block_before_sentinel :
  SquashingTransform.run 4 0 [small_block; large_block] SquashingTransform.init
  = Ok ([[]; small_block], large_block)
  /\ small_block <> []
  /\ SquashingTransform.isEnoughSizeBlock 4 0 small_block = Ok false.
Proof. repeat split. discriminate. Qed.

Lemma squashing_returned_enough_or_displaced_witness :
  large_block <> []
  /\ SquashingTransform.add 4 0 large_block small_block = Ok (small_block, large_block)
  /\ (small_block = []
      \/ SquashingTransform.isEnoughSizeBlock 4 0 small_block = Ok true
      \/ (small_block = small_block /\ small_block <> []
          /\ SquashingTransform.isEnoughSizeBlock 4 0 large_block = Ok true
          /\ large_block = large_block)).
Proof.
  split; [discriminate|]. split; [reflexivity|].
  apply (squashing_returned_enough_or_displaced 4 0 large_block small_block);
    [discriminate | reflexivity].
Defined.

Lemma squashing_fast_path_witness :
  SquashingTransform.isEnoughSizeBlock 4 0 large_block = Ok true
  /\ SquashingTransform.add 4 0 large_block [] = Ok (large_block, []).
Proof.
  split; [reflexivity|]. apply squashing_fast_path. reflexivity.
Defined.

(** ** The memory check *)

Lemma toInt64_small x : - 2 ^ 63 <= x < 2 ^ 63 -> toInt64 x = x.
Proof.
  intros Hx. unfold toInt64, size_t_modulus.
  rewrite Z.mod_small; lia.
Qed.

Lemma toInt64_range x : - 2 ^ 63 <= toInt64 x < 2 ^ 63.
Proof.
  unfold toInt64, size_t_modulus.
  pose proof (Z.mod_pos_bound (x + 2 ^ 63) (2 ^ 64) ltac:(lia)). lia.
Qed.

(** When the wait is over, the read that ended it left more than [bytes] free. *)
Lemma waitForMemory_returns memory_tracker hard_limit bytes budget :
  forall k k',
  waitForMemory memory_tracker hard_limit bytes budget k = Some k' ->
  (k < k')%nat
  /\ toInt64 bytes
     < Int64_sub (Z.b2z hard_limit) (get memory_tracker (k' - 1)).
Proof.
  induction budget as [|budget IH]; intros k k' E; cbn in E; [discriminate|].
  destruct (toInt64 bytes >=? Int64_sub (Z.b2z hard_limit) (get memory_tracker k))
    eqn:Ecmp.
  - destruct (IH _ _ E) as [Hlt Hfree]. split; [lia | exact Hfree].
  - injection E as <-. split; [lia|].
    replace (S k - 1)%nat with k by lia. lia.
Qed.

(** The wait of the code is over only when [1 - get()] exceeds [bytes]: with
    a hard limit, whatever it is, and at least one byte in use at every
    read, no request is ever let through, however long the wait. *)
Lemma memory_gate_spins_while_in_use memory_tracker budget bytes :
  getHardLimit memory_tracker <> 0 ->
  (forall n, 1 <= get memory_tracker n < 2 ^ 63) ->
  0 <= bytes < 2 ^ 63 ->
  forall k, checkAndWaitMemoryAvailability memory_tracker budget bytes k = None.
Proof.
  intros Hlimit Hget Hbytes k. unfold checkAndWaitMemoryAvailability.
  replace (getHardLimit memory_tracker =? 0) with false
    by (symmetry; now apply Z.eqb_neq).
  cbn [negb].
  revert k; induction budget as [|budget IH]; intros k; [reflexivity|].
  cbn [waitForMemory Z.b2z]. unfold Int64_sub.
  specialize (Hget k).
  rewrite !toInt64_small by lia.
  replace (bytes >=? 1 - get memory_tracker k) with true
    by (symmetry; apply Z.geb_le; lia).
  apply IH.
Qed.

(** With a limit of 100 bytes, 10 of them in use, a request of 5 bytes is
    never let through. *)
Lemma memory_gate_spins_below_limit budget k :
  checkAndWaitMemoryAvailability limited_tracker budget 5 k = None.
Proof.
  apply memory_gate_spins_while_in_use.
  - discriminate.
  - intros n. cbn [limited_tracker get]. lia.
  - lia.
Qed.

(** C4. [checkAndWaitMemoryAvailability], the same in [BalanceTransform] and
    in [BalanceBlockTransform], returns only when the hard limit is 0 or the
    last value read from the tracker leaves more than the requested bytes
    under the limit. The limit is a number of bytes (not negative), the
    request fits [Int64], and [get()] returns an [Int64]. *)
Theorem memory_gate_returns_only_below_limit memory_tracker budget bytes k k' :
  0 <= getHardLimit memory_tracker ->
  0 <= bytes < 2 ^ 63 ->
  (forall n, - 2 ^ 63 <= get memory_tracker n < 2 ^ 63) ->
  checkAndWaitMemoryAvailability memory_tracker budget bytes k = Some k' ->
  getHardLimit memory_tracker = 0
  \/ ((k < k')%nat
      /\ getHardLimit memory_tracker - get memory_tracker (k' - 1) > bytes).
Proof.
  intros Hlimit Hbytes Hget E. unfold checkAndWaitMemoryAvailability in E.
  destruct (getHardLimit memory_tracker =? 0) eqn:E0; cbn [negb] in E.
  - left. lia.
  - right. apply waitForMemory_returns in E. destruct E as [Hk Hfree].
    split; [exact Hk|].
    rewrite toInt64_small in Hfree by lia.
    cbn [Z.b2z] in Hfree. unfold Int64_sub in Hfree.
    specialize (Hget (k' - 1)%nat).
    destruct (Z.le_gt_cases (get memory_tracker (k' - 1)) (- 2 ^ 63 + 1)) as [Hlow|Hhigh].
    + exfalso. unfold toInt64, size_t_modulus in Hfree.
      assert (Hw : (1 - get memory_tracker (k' - 1) + 2 ^ 63) mod 2 ^ 64
                   = 1 - get memory_tracker (k' - 1) + 2 ^ 63 - 2 ^ 64).
      { symmetry. apply Z.mod_unique with (q := 1); lia. }
      rewrite Hw in Hfree. lia.
    + rewrite toInt64_small in Hfree by lia. lia.
Qed.

Lemma memory_gate_returns_only_below_limit_witness :
  checkAndWaitMemoryAvailability
    (mkMemoryTracker 100 (fun n => if (n <? 2)%nat then 10 else -3)) 5 2 0 = Some 3%nat
  /\ (100 = 0 \/ ((0 < 3)%nat /\ 100 - (-3) > 2)).
Proof.
  split; [reflexivity|].
  apply (memory_gate_returns_only_below_limit
           (mkMemoryTracker 100 (fun n => if (n <? 2)%nat then 10 else -3)) 5 2 0 3).
  - cbn. lia.
  - lia.
  - intros n. cbn [get]. destruct (n <? 2)%nat; lia.
  - reflexivity.
Defined.

(** ** BalanceTransform: one call of [add] *)

Section BalanceFacts.
Context {Field : Type} `{IColumn Field}.
Variable header : Block Field.
Variables min_rows min_bytes : Z.
Variable memory_tracker : MemoryTracker.
Variable budget : nat.

Abbreviation bstate := (@BalanceTransform.state Field).
Abbreviation badd := (BalanceTransform.add header min_rows min_bytes memory_tracker budget).
Abbreviation convertToChunk := (@BalanceTransform.convertToChunk Field header).
Abbreviation isEnoughSizeChunks :=
  (BalanceTransform.isEnoughSizeChunks min_rows min_bytes memory_tracker budget).
Abbreviation pendingEnough := (BalanceTransform.pendingEnough min_rows min_bytes).
Abbreviation pendingBytes := (@BalanceTransform.pendingBytes Field _).
Abbreviation gate := (checkAndWaitMemoryAvailability memory_tracker budget).

Lemma map_clone (chunks : list (Chunk Field)) : map clone chunks = chunks.
Proof. unfold clone. apply map_id. Qed.

Lemma newChunk_empty_columns (block : Block Field) info :
  newChunk (cloneEmptyColumns block) 0 info
  = Ok (mkChunk (cloneEmptyColumns block) 0 info).
Proof.
  unfold newChunk.
  replace (checkNumRowsIsConsistent (cloneEmptyColumns block) 0) with true;
    [reflexivity|].
  symmetry. unfold checkNumRowsIsConsistent, cloneEmptyColumns.
  apply forallb_forall. intros c Hin. apply in_map_iff in Hin.
  destruct Hin as (x & <- & _). reflexivity.
Qed.

(** [isEnoughSize(chunks_to_merge_vec)] without the monad. *)
Lemma balance_isEnoughSizeChunks_eq (s : bstate) :
  isEnoughSizeChunks s =
  match gate (pendingBytes (BalanceTransform.chunks_to_merge_vec s))
          (BalanceTransform.reads s) with
  | Some k =>
      Ok (pendingEnough (BalanceTransform.chunks_to_merge_vec s),
          BalanceTransform.mkState
            (BalanceTransform.chunks_to_merge_vec s)
            (BalanceTransform.data_types s) k
            (BalanceTransform.events s
             ++ [BalanceTransform.MemoryChecked
                   (pendingBytes (BalanceTransform.chunks_to_merge_vec s))]))
  | None => Spin
  end.
Proof.
  unfold BalanceTransform.isEnoughSizeChunks, BalanceTransform.pendingEnough,
    BalanceTransform.pendingBytes, BalanceTransform.pendingRows,
    BalanceTransform.memoryGate.
  unfold_monad.
  destruct (BalanceTransform.sizesOfChunks (BalanceTransform.chunks_to_merge_vec s) 0 0)
    as [rows0 bytes0].
  cbn [fst snd].
  destruct (gate bytes0 (BalanceTransform.reads s)); reflexivity.
Qed.

(** [convertToChunk(chunks_to_merge_vec)] without the monad. *)
Lemma balance_convertToChunk_eq (s : bstate) :
  convertToChunk s =
  match BalanceTransform.chunks_to_merge_vec s with
  | [] => Ok (emptyChunk, s)
  | _ :: _ =>
      Ok (mkChunk (cloneEmptyColumns header) 0
            (Some (ChunksToSquash (BalanceTransform.chunks_to_merge_vec s)
                     (BalanceTransform.data_types s))),
          BalanceTransform.mkState [] (BalanceTransform.data_types s)
            (BalanceTransform.reads s)
            (BalanceTransform.events s ++ [BalanceTransform.PendingCleared]))
  end.
Proof.
  unfold BalanceTransform.convertToChunk, BalanceTransform.clearChunks,
    BalanceTransform.record, BalanceTransform.setChunks.
  unfold_monad.
  destruct (BalanceTransform.chunks_to_merge_vec s) as [|c cs] eqn:Ep; [reflexivity|].
  cbn [BalanceTransform.chunks_to_merge_vec BalanceTransform.data_types
       BalanceTransform.reads BalanceTransform.events].
  rewrite newChunk_empty_columns, map_clone. reflexivity.
Qed.

(** [add] on the sentinel is [convertToChunk]. *)
Lemma balance_add_nil (s : bstate) : badd [] s = convertToChunk s.
Proof.
  unfold BalanceTransform.add, BalanceTransform.addImpl. unfold_monad. cbn.
  destruct s; reflexivity.
Qed.

Lemma checkNumRowsIsConsistent_block (block : Block Field) :
  checkNumRowsIsConsistent (getColumns block) (rows block) = consistentRows block.
Proof.
  unfold checkNumRowsIsConsistent, consistentRows, getColumns.
  generalize (rows block). intros n.
  induction block as [|c block IH]; [reflexivity|].
  cbn [map forallb]. now rewrite IH.
Qed.

Lemma newChunk_block (c : ColumnWithTypeAndName Field) (block : Block Field) chunk :
  newChunk (getColumns (c :: block)) (rows (c :: block)) None = Ok chunk ->
  chunk = mkChunk (getColumns (c :: block)) (rows (c :: block)) None
  /\ Chunk_bool chunk = true.
Proof.
  unfold newChunk.
  destruct (checkNumRowsIsConsistent _ _); [|discriminate].
  intros E. injection E as <-. split; [reflexivity|].
  unfold Chunk_bool, hasColumns, getNumColumns. cbn. apply orb_true_r.
Qed.

(** [add] on a block that is not the sentinel, without the monad: the chunk
    is made, the memory is checked for the list as it is, the list is
    cleared when it was enough, the chunk is pushed, the memory is checked
    for the list with the chunk, and the list is handed over when it is
    enough now. *)
Lemma balance_add_cons (c : ColumnWithTypeAndName Field) (block : Block Field)
    (s : bstate) :
  badd (c :: block) s =
  match newChunk (getColumns (c :: block)) (rows (c :: block)) None with
  | Ok chunk =>
      let pending := BalanceTransform.chunks_to_merge_vec s in
      let types := getDataTypes (c :: block) in
      match gate (pendingBytes pending) (BalanceTransform.reads s) with
      | Some k1 =>
          let checked := BalanceTransform.events s
                         ++ [BalanceTransform.MemoryChecked (pendingBytes pending)] in
          let kept := if pendingEnough pending then [] else pending in
          let cleared := if pendingEnough pending
                         then checked ++ [BalanceTransform.PendingCleared]
                         else checked in
          let pushed := cleared ++ [BalanceTransform.PendingPushed chunk] in
          match gate (pendingBytes (kept ++ [chunk])) k1 with
          | Some k2 =>
              let checked' := pushed ++ [BalanceTransform.MemoryChecked
                                           (pendingBytes (kept ++ [chunk]))] in
              if pendingEnough (kept ++ [chunk])
              then Ok (mkChunk (cloneEmptyColumns header) 0
                         (Some (ChunksToSquash (kept ++ [chunk]) types)),
                       BalanceTransform.mkState [] types k2
                         (checked' ++ [BalanceTransform.PendingCleared]))
              else Ok (chunk, BalanceTransform.mkState (kept ++ [chunk]) types k2 checked')
          | None => Spin
          end
      | None => Spin
      end
  | Throw e => Throw e
  | Spin => Spin
  end.
Proof.
  unfold BalanceTransform.add, BalanceTransform.addImpl.
  unfold bind at 1. unfold lift at 1.
  destruct (newChunk (getColumns (c :: block)) (rows (c :: block)) None)
    as [chunk| |] eqn:En; try reflexivity.
  destruct (newChunk_block _ _ _ En) as [_ Hb].
  unfold bind at 1. cbn [getDataTypes map]. unfold BalanceTransform.setDataTypes at 1.
  rewrite Hb. cbn [negb].
  unfold bind at 1. rewrite balance_isEnoughSizeChunks_eq.
  cbn [BalanceTransform.chunks_to_merge_vec BalanceTransform.data_types
       BalanceTransform.reads BalanceTransform.events].
  destruct (gate (pendingBytes (BalanceTransform.chunks_to_merge_vec s))
              (BalanceTransform.reads s)) as [k1|]; [|reflexivity].
  cbn zeta.
  destruct (pendingEnough (BalanceTransform.chunks_to_merge_vec s)).
  - unfold BalanceTransform.clearChunks, BalanceTransform.pushChunk,
      BalanceTransform.record, BalanceTransform.setChunks.
    unfold_monad. unfold clone.
    cbn [BalanceTransform.chunks_to_merge_vec BalanceTransform.data_types
         BalanceTransform.reads BalanceTransform.events].
    rewrite balance_isEnoughSizeChunks_eq.
    cbn [BalanceTransform.chunks_to_merge_vec BalanceTransform.data_types
         BalanceTransform.reads BalanceTransform.events clone app].
    destruct (gate (pendingBytes [chunk]) k1) as [k2|]; [|reflexivity].
    destruct (pendingEnough [chunk]); [|reflexivity].
    rewrite balance_convertToChunk_eq. reflexivity.
  - unfold BalanceTransform.pushChunk,
      BalanceTransform.record, BalanceTransform.setChunks.
    unfold_monad. unfold clone.
    cbn [BalanceTransform.chunks_to_merge_vec BalanceTransform.data_types
         BalanceTransform.reads BalanceTransform.events].
    rewrite balance_isEnoughSizeChunks_eq.
    cbn [BalanceTransform.chunks_to_merge_vec BalanceTransform.data_types
         BalanceTransform.reads BalanceTransform.events clone].
    destruct (gate (pendingBytes (BalanceTransform.chunks_to_merge_vec s ++ [chunk])) k1)
      as [k2|]; [|reflexivity].
    destruct (pendingEnough (BalanceTransform.chunks_to_merge_vec s ++ [chunk]));
      [|reflexivity].
    rewrite balance_convertToChunk_eq.
    cbn [BalanceTransform.chunks_to_merge_vec BalanceTransform.data_types
         BalanceTransform.reads BalanceTransform.events].
    destruct (BalanceTransform.chunks_to_merge_vec s ++ [chunk]) eqn:Ep;
      [destruct (BalanceTransform.chunks_to_merge_vec s); discriminate|].
    reflexivity.
Qed.

(** ** BalanceTransform: the propositions of the specification *)

Abbreviation sadd := (SquashingTransform.add min_rows min_bytes).
Abbreviation sIsEnoughSizeBlock := (SquashingTransform.isEnoughSizeBlock min_rows min_bytes).

Lemma sizesOfChunks_app (chunks : list (Chunk Field)) chunk :
  forall rows0 bytes0,
  BalanceTransform.sizesOfChunks (chunks ++ [chunk]) rows0 bytes0
  = (size_t_add (fst (BalanceTransform.sizesOfChunks chunks rows0 bytes0))
       (getNumRows chunk),
     size_t_add (snd (BalanceTransform.sizesOfChunks chunks rows0 bytes0))
       (BalanceTransform.Chunk_bytes chunk)).
Proof.
  induction chunks as [|c chunks IH]; intros rows0 bytes0; [reflexivity|].
  cbn [app BalanceTransform.sizesOfChunks]. apply IH.
Qed.

(** The bytes handed to the second memory check: those of the chunks kept in
    the list plus those of the chunk pushed, on [size_t]. *)
Lemma pendingBytes_app (chunks : list (Chunk Field)) chunk :
  pendingBytes (chunks ++ [chunk])
  = size_t_add (pendingBytes chunks) (BalanceTransform.Chunk_bytes chunk).
Proof.
  unfold BalanceTransform.pendingBytes. now rewrite sizesOfChunks_app.
Qed.

(** C5, as the code has it. A call of [add] on a block that is not the
    sentinel checks the memory at most twice, and twice when it returns:
    first, before the list is touched, for the bytes of the list as it is,
    without the block; then, after the chunk of the block has been pushed
    (on the list emptied first when it was enough), for the bytes of the
    list with it. The call returns exactly when both checks do: when the
    first does not come back the call stays in it with the list untouched,
    when the second does not come back the call stays in it after the push.
    A block whose columns differ in size makes the call throw when its
    chunk is made, before any check and whatever the tracker answers. *)
Theorem balance_add_memory_checks (input : Block Field) (s : bstate) :
  input <> [] ->
  let candidate := mkChunk (getColumns input) (rows input) None in
  let pending := BalanceTransform.chunks_to_merge_vec s in
  let kept := if pendingEnough pending then [] else pending in
  let first := gate (pendingBytes pending) (BalanceTransform.reads s) in
  let second := gate (pendingBytes (kept ++ [candidate])) in
  let trace :=
    BalanceTransform.events s
    ++ [BalanceTransform.MemoryChecked (pendingBytes pending)]
    ++ (if pendingEnough pending then [BalanceTransform.PendingCleared] else [])
    ++ [BalanceTransform.PendingPushed candidate]
    ++ [BalanceTransform.MemoryChecked (pendingBytes (kept ++ [candidate]))]
    ++ (if pendingEnough (kept ++ [candidate])
        then [BalanceTransform.PendingCleared] else []) in
  pendingBytes (kept ++ [candidate])
  = size_t_add (pendingBytes kept) (BalanceTransform.Chunk_bytes candidate)
  /\ (consistentRows input = false -> badd input s = Throw LOGICAL_ERROR)
  /\ (consistentRows input = true ->
      match first with
      | None => badd input s = Spin
      | Some k1 =>
          match second k1 with
          | None => badd input s = Spin
          | Some k2 =>
              exists chunk s',
                badd input s = Ok (chunk, s')
                /\ BalanceTransform.reads s' = k2
                /\ BalanceTransform.events s' = trace
          end
      end)
  /\ (forall chunk s',
         badd input s = Ok (chunk, s') ->
         exists k1,
           first = Some k1
           /\ second k1 = Some (BalanceTransform.reads s')
           /\ BalanceTransform.events s' = trace).
Proof.
  intros Hne candidate pending kept first second trace.
  split; [apply pendingBytes_app|].
  destruct input as [|c block]; [congruence|].
  assert (Hadd : badd (c :: block) s =
                 if consistentRows (c :: block)
                 then match first with
                      | None => Spin
                      | Some k1 =>
                          match second k1 with
                          | None => Spin
                          | Some k2 =>
                              if pendingEnough (kept ++ [candidate])
                              then Ok (mkChunk (cloneEmptyColumns header) 0
                                         (Some (ChunksToSquash (kept ++ [candidate])
                                                  (getDataTypes (c :: block)))),
                                       BalanceTransform.mkState []
                                         (getDataTypes (c :: block)) k2 trace)
                              else Ok (candidate,
                                       BalanceTransform.mkState (kept ++ [candidate])
                                         (getDataTypes (c :: block)) k2 trace)
                          end
                      end
                 else Throw LOGICAL_ERROR).
  { rewrite balance_add_cons. unfold newChunk.
    rewrite checkNumRowsIsConsistent_block.
    destruct (consistentRows (c :: block)); [|reflexivity].
    cbn zeta. fold candidate. fold pending. fold first.
    destruct first as [k1|]; [|reflexivity].
    fold kept. fold second.
    destruct (second k1) as [k2|]; [|reflexivity].
    subst trace.
    destruct (pendingEnough pending);
      destruct (pendingEnough (kept ++ [candidate]));
      cbn [app]; rewrite <- ?app_assoc; reflexivity. }
  rewrite Hadd. clear Hadd.
  split; [|split].
  - now intros ->.
  - intros ->.
    destruct first as [k1|]; [|reflexivity].
    destruct (second k1) as [k2|]; [|reflexivity].
    destruct (pendingEnough (kept ++ [candidate]));
      eexists _, _; repeat split.
  - intros chunk s' E.
    destruct (consistentRows (c :: block)); [|discriminate].
    destruct first as [k1|]; [|discriminate].
    exists k1. split; [reflexivity|].
    destruct (second k1) as [k2|]; [|discriminate].
    destruct (pendingEnough (kept ++ [candidate]));
      injection E as <- <-; split; reflexivity.
Qed.

(** C6, as the code has it. After a call the buffer of the squasher is
    empty, or not enough, or it is the block just read, which is enough on
    its own and took the place of the block returned; the list of the
    balancer is empty or not enough. *)
Theorem buffer_between_calls :
  (forall (input accumulated returned accumulated' : Block Field),
      sadd input accumulated = Ok (returned, accumulated') ->
      accumulated' = []
      \/ sIsEnoughSizeBlock accumulated' = Ok false
      \/ (accumulated' = input /\ sIsEnoughSizeBlock input = Ok true
          /\ returned = accumulated /\ accumulated <> []))
  /\ (forall (input : Block Field) (s : bstate) chunk s',
         badd input s = Ok (chunk, s') ->
         BalanceTransform.chunks_to_merge_vec s' = []
         \/ pendingEnough (BalanceTransform.chunks_to_merge_vec s') = false).
Proof.
  split.
  - intros input accumulated returned accumulated' E.
    rewrite squashing_add_eq in E.
    destruct input as [|c input]; [injection E as <- <-; auto|].
    destruct (sIsEnoughSizeBlock (c :: input)) as [[|]| |] eqn:Ei; try discriminate.
    + destruct accumulated as [|a accumulated]; injection E as <- <-; [auto|].
      right; right. repeat split. discriminate.
    + destruct (sIsEnoughSizeBlock accumulated) as [[|]| |] eqn:Ea; try discriminate.
      * injection E as <- <-. auto.
      * destruct (SquashingTransform.append (c :: input) accumulated)
          as [[[] appended]| |]; try discriminate.
        destruct (sIsEnoughSizeBlock appended) as [[|]| |] eqn:Ep; try discriminate;
          injection E as <- <-; auto.
  - intros input s chunk s' E.
    destruct input as [|c block].
    + rewrite balance_add_nil, balance_convertToChunk_eq in E.
      destruct (BalanceTransform.chunks_to_merge_vec s) eqn:Ep;
        injection E as <- <-; auto.
    + rewrite balance_add_cons in E.
      destruct (newChunk _ _ _) as [made| |]; try discriminate.
      cbn zeta in E.
      destruct (gate _ _) as [k1|]; [|discriminate].
      destruct (gate _ _) as [k2|]; [|discriminate].
      destruct (pendingEnough (_ ++ [made])) eqn:Ee; injection E as <- <-; auto.
Qed.

(** C10. A chunk that [add] returns with a [ChunksToSquash] info has no rows
    and a list of chunks that is not empty; on the sentinel with nothing
    pending, [add] returns the empty chunk without info and changes nothing. *)
Theorem balance_marker_shape :
  (forall (input : Block Field) (s : bstate) chunk s' chunks types,
      badd input s = Ok (chunk, s') ->
      getChunkInfo chunk = Some (ChunksToSquash chunks types) ->
      getNumRows chunk = 0 /\ chunks <> [])
  /\ (forall s : bstate,
         BalanceTransform.chunks_to_merge_vec s = [] ->
         badd [] s = Ok (emptyChunk, s)
         /\ getChunkInfo (@emptyChunk Field) = None).
Proof.
  split.
  - intros input s chunk s' chunks types E Hinfo.
    destruct input as [|c block].
    + rewrite balance_add_nil, balance_convertToChunk_eq in E.
      destruct (BalanceTransform.chunks_to_merge_vec s) eqn:Ep;
        injection E as <- <-; cbn in Hinfo; [discriminate|].
      injection Hinfo as <- <-. split; [reflexivity | discriminate].
    + rewrite balance_add_cons in E.
      destruct (newChunk _ _ _) as [made| |] eqn:En; try discriminate.
      destruct (newChunk_block _ _ _ En) as [Hmade _].
      cbn zeta in E.
      destruct (gate _ _) as [k1|]; [|discriminate].
      destruct (gate _ _) as [k2|]; [|discriminate].
      destruct (pendingEnough (_ ++ [made])) eqn:Ee; injection E as <- <-.
      * cbn in Hinfo. injection Hinfo as <- <-.
        split; [reflexivity|].
        destruct (if pendingEnough _ then _ else _); discriminate.
      * subst made. discriminate.
  - intros s Hp. rewrite balance_add_nil, balance_convertToChunk_eq, Hp.
    split; reflexivity.
Qed.

(** C8, as the code has it. In the squasher a block whose first column is
    not empty and has a column of another size makes [add] throw
    SIZES_OF_COLUMNS_DOESNT_MATCH, whatever the thresholds and the buffer,
    so before they are looked at. The balancer never throws that exception:
    its [isEnoughSize] adds up rows and bytes of chunks and looks at no
    column size; a block whose columns differ in size is refused earlier,
    when its chunk is made, with LOGICAL_ERROR. *)
Theorem column_sizes_checked_before_thresholds :
  (forall (c : ColumnWithTypeAndName Field) (block accumulated : Block Field),
      size (column c) <> 0 ->
      Exists (fun x => size (column x) <> size (column c)) block ->
      sadd (c :: block) accumulated = Throw SIZES_OF_COLUMNS_DOESNT_MATCH)
  /\ (forall (input : Block Field) (s : bstate),
         consistentRows input = false ->
         badd input s = Throw LOGICAL_ERROR)
  /\ (forall (input : Block Field) (s : bstate),
         badd input s <> Throw SIZES_OF_COLUMNS_DOESNT_MATCH).
Proof.
  split; [|split].
  - intros c block accumulated Hc Hex.
    rewrite squashing_add_eq.
    unfold SquashingTransform.isEnoughSizeBlock.
    cbn [SquashingTransform.sizesOfColumns Z.eqb].
    now rewrite sizesOfColumns_mismatch.
  - intros input s Hragged.
    destruct input as [|c block]; [discriminate|].
    rewrite balance_add_cons. unfold newChunk.
    now rewrite checkNumRowsIsConsistent_block, Hragged.
  - intros input s E.
    destruct input as [|c block].
    + rewrite balance_add_nil, balance_convertToChunk_eq in E.
      destruct (BalanceTransform.chunks_to_merge_vec s); discriminate.
    + rewrite balance_add_cons in E.
      unfold newChunk in E.
      destruct (checkNumRowsIsConsistent _ _); [|discriminate].
      cbn zeta in E.
      destruct (gate _ _) as [k1|]; [|discriminate].
      destruct (gate _ _) as [k2|]; [|discriminate].
      destruct (pendingEnough (_ ++ _)); discriminate.
Qed.

End BalanceFacts.

(** Under a hard limit with memory in use the balancer does not come back
    from its first memory check, made for the empty list. *)
Lemma balance_add_spins_under_limit budget :
  BalanceTransform.add sample_header 4 0 limited_tracker budget small_block
    BalanceTransform.init = Spin.
Proof.
  unfold small_block, blockOf. cbn [map].
  rewrite balance_add_cons.
  cbn [newChunk checkNumRowsIsConsistent getColumns rows map column forallb size
       length Z.of_nat Pos.of_succ_nat Pos.succ Z.eqb Pos.eqb andb].
  cbn zeta.
  now rewrite memory_gate_spins_while_in_use
    by (try discriminate; try (intros n; cbn [limited_tracker get]); cbn; lia).
Qed.

(** C5 as it is written fails: with 32 bytes pending and a block of 32 bytes
    arriving (nothing is enough with [min_block_size_rows = 100]), the check
    made before the push is for the 32 bytes already pending, not for the 64
    of the list with the block; the check for 64 bytes comes after the push. *)
Lemma balance_first_check_excludes_candidate :
  exists chunk s',
    BalanceTransform.add sample_header 100 0 unlimited_tracker 1 small_block one_pending
    = Ok (chunk, s')
    /\ BalanceTransform.events s'
       = [BalanceTransform.MemoryChecked 32;
          BalanceTransform.PendingPushed small_chunk;
          BalanceTransform.MemoryChecked 64]
    /\ BalanceTransform.pendingBytes [small_chunk; small_chunk] = 64.
Proof. eexists _, _. repeat split. Qed.

Lemma balance_add_memory_checks_witness :
  small_block <> []
  /\ consistentRows small_block = true
  /\ (exists chunk s',
         BalanceTransform.add sample_header 4 0 draining_tracker 3 small_block one_pending
         = Ok (chunk, s')
         /\ BalanceTransform.reads s' = 4%nat
         /\ BalanceTransform.events s'
            = [BalanceTransform.MemoryChecked 32;
               BalanceTransform.PendingPushed small_chunk;
               BalanceTransform.MemoryChecked 64;
               BalanceTransform.PendingCleared])
  /\ BalanceTransform.add sample_header 4 0 limited_tracker 3 small_block one_pending
     = Spin
  /\ BalanceTransform.add sample_header 4 0 limited_tracker 3 ragged_block_empty_last
       one_pending
     = Throw LOGICAL_ERROR.
Proof.
  split; [discriminate|]. split; [reflexivity|]. split; [|split].
  - exact (proj1 (proj2 (proj2 (balance_add_memory_checks sample_header 4 0
                                  draining_tracker 3 small_block one_pending
                                  ltac:(discriminate)))) eq_refl).
  - exact (proj1 (proj2 (proj2 (balance_add_memory_checks sample_header 4 0
                                  limited_tracker 3 small_block one_pending
                                  ltac:(discriminate)))) eq_refl).
  - exact (proj1 (proj2 (balance_add_memory_checks sample_header 4 0
                           limited_tracker 3 ragged_block_empty_last one_pending
                           ltac:(discriminate))) eq_refl).
Defined.

(** C6 as it is written fails for the squasher: with
    [min_block_size_rows = 4], after the call on a block of five rows that
    found two rows accumulated, the buffer holds the five rows, which are
    enough, until the next call. *)
Lemma squashing_buffer_holds_enough_block :
  SquashingTransform.run 4 0 [small_block; large_block] SquashingTransform.init
  = Ok ([[]; small_block], large_block)
  /\ SquashingTransform.isEnoughSizeBlock 4 0 large_block = Ok true
  /\ rows large_block = 5.
Proof. repeat split. Qed.

Lemma buffer_between_calls_witness :
  SquashingTransform.add 4 0 large_block small_block = Ok (small_block, large_block)
  /\ (large_block = []
      \/ SquashingTransform.isEnoughSizeBlock 4 0 large_block = Ok false
      \/ (large_block = large_block
          /\ SquashingTransform.isEnoughSizeBlock 4 0 large_block = Ok true
          /\ small_block = small_block /\ small_block <> []))
  /\ exists chunk s',
       BalanceTransform.add sample_header 4 0 unlimited_tracker 1 small_block
         BalanceTransform.init = Ok (chunk, s')
       /\ (BalanceTransform.chunks_to_merge_vec s' = []
           \/ BalanceTransform.pendingEnough 4 0
                (BalanceTransform.chunks_to_merge_vec s') = false).
Proof.
  destruct (buffer_between_calls sample_header 4 0 unlimited_tracker 1)
    as [Hsquashing Hbalance].
  split; [reflexivity|]. split.
  - apply (Hsquashing large_block small_block small_block large_block). reflexivity.
  - eexists _, _. split; [lazy; reflexivity|].
    eapply (Hbalance small_block BalanceTransform.init). reflexivity.
Defined.

Lemma balance_marker_shape_witness :
  exists chunk s' chunks types,
    BalanceTransform.add sample_header 4 0 unlimited_tracker 1 large_block one_pending
    = Ok (chunk, s')
    /\ getChunkInfo chunk = Some (ChunksToSquash chunks types)
    /\ getNumRows chunk = 0 /\ chunks <> []
    /\ BalanceTransform.add sample_header 4 0 unlimited_tracker 1 []
         BalanceTransform.init = Ok (emptyChunk, BalanceTransform.init).
Proof.
  destruct (balance_marker_shape sample_header 4 0 unlimited_tracker 1)
    as [Hmarker Hsentinel].
  eexists _, _, _, _. split; [lazy; reflexivity|]. split; [reflexivity|].
  destruct (Hmarker large_block one_pending _ _ _ _ eq_refl eq_refl) as [Hrows Hlist].
  split; [exact Hrows|]. split; [exact Hlist|].
  apply (Hsentinel BalanceTransform.init). reflexivity.
Defined.

(** C8 as it is written fails. In the squasher a block whose first column is
    empty and whose second column has two rows goes through [add] without an
    exception; in the balancer a block of two rows and no rows does not end
    in SIZES_OF_COLUMNS_DOESNT_MATCH. *)
Lemma ragged_block_not_rejected :
  SquashingTransform.add 4 0 ragged_block_empty_first []
  = Ok ([], ragged_block_empty_first)
  /\ map (fun c => size (column c)) ragged_block_empty_first = [0; 2]
  /\ BalanceTransform.add sample_header 4 0 unlimited_tracker 1
       ragged_block_empty_last BalanceTransform.init
     <> Throw SIZES_OF_COLUMNS_DOESNT_MATCH.
Proof. repeat split. discriminate. Qed.

Lemma column_sizes_checked_before_thresholds_witness :
  SquashingTransform.add 4 0 ragged_block_empty_last []
  = Throw SIZES_OF_COLUMNS_DOESNT_MATCH
  /\ consistentRows ragged_block_empty_first = false
  /\ BalanceTransform.add sample_header 4 0 unlimited_tracker 1
       ragged_block_empty_first BalanceTransform.init
     = Throw LOGICAL_ERROR
  /\ BalanceTransform.add sample_header 4 0 unlimited_tracker 1
       ragged_block_empty_last BalanceTransform.init
     <> Throw SIZES_OF_COLUMNS_DOESNT_MATCH.
Proof.
  destruct (column_sizes_checked_before_thresholds sample_header 4 0
              unlimited_tracker 1) as (Hsquashing & Hragged & Hbalance).
  split; [|split; [reflexivity|split]].
  - apply (Hsquashing (mkColumnWithTypeAndName [1; 2] "UInt64"%string "x"%string)
             (blockOf [[]]) []).
    + discriminate.
    + constructor. discriminate.
  - apply Hragged. reflexivity.
  - apply Hbalance.
Defined.

(** ** NewSquashingTransform *)

Section NewSquashingFacts.
Context {Field : Type}.

Abbreviation nadd := (@NewSquashingTransform.add Field).
Abbreviation nappend := (@NewSquashingTransform.append Field).
Abbreviation appendAll := (@NewSquashingTransform.appendAll Field).

Lemma chunkData_nil_columns i (chunk : Chunk Field) :
  chunkColumns chunk = [] -> chunkData i chunk = [].
Proof. unfold chunkData. intros ->. now destruct i. Qed.

(** The first loop of [append] builds one column of the block for each
    column of the chunk, as long as there is a data type for it. *)
Lemma insertChunkColumns_total (cols : Columns Field) types :
  forall i (accumulated : Block Field),
  (i + length cols <= length types)%nat ->
  exists inserted,
    NewSquashingTransform.insertChunkColumns cols types i accumulated
    = Ok (accumulated ++ inserted)
    /\ getColumns inserted = cols.
Proof.
  induction cols as [|c cols IH]; intros i accumulated Hlen.
  - exists []. cbn. now rewrite app_nil_r.
  - cbn [NewSquashingTransform.insertChunkColumns].
    destruct (nth_error types i) as [t|] eqn:Et.
    + destruct (IH (S i) (accumulated
                          ++ [mkColumnWithTypeAndName c t (t ++ toString i)%string]))
        as (rest & E & Hc); [cbn in Hlen; lia|].
      exists (mkColumnWithTypeAndName c t (t ++ toString i)%string :: rest).
      rewrite E, <- app_assoc. split; [reflexivity|].
      unfold getColumns in *. cbn [map column]. now rewrite Hc.
    + apply nth_error_None in Et. cbn in Hlen. lia.
Qed.

(** [append] without the monad. *)
Lemma new_squashing_append_eq (chunk : Chunk Field) types (accumulated : Block Field) :
  nappend chunk types accumulated =
  match chunkColumns chunk with
  | [] => Ok (tt, accumulated)
  | _ :: _ =>
      match accumulated with
      | [] =>
          match NewSquashingTransform.insertChunkColumns (chunkColumns chunk) types O []
          with
          | Ok inserted => Ok (tt, inserted)
          | Throw e => Throw e
          | Spin => Spin
          end
      | _ :: _ =>
          match insertRangeFromColumns accumulated (chunkColumns chunk) with
          | Ok appended => Ok (tt, appended)
          | Throw e => Throw e
          | Spin => Spin
          end
      end
  end.
Proof.
  unfold NewSquashingTransform.append, getNumColumns.
  destruct (chunkColumns chunk) as [|c cols]; [reflexivity|].
  cbn [length]. replace (Z.of_nat (S (length cols)) =? 0) with false
    by (symmetry; apply Z.eqb_neq; lia).
  unfold_monad.
  destruct accumulated as [|a accumulated].
  - cbn [Block_bool columns length Z.of_nat Z.eqb negb].
    destruct (NewSquashingTransform.insertChunkColumns _ _ _ _); reflexivity.
  - rewrite Block_bool_cons. cbn [negb].
    destruct (insertRangeFromColumns _ _); reflexivity.
Qed.

(** Appending a chunk of [n] columns to a buffer that is empty or has [n]
    columns puts the values of the chunk after those of the buffer. *)
Lemma new_squashing_append_data (chunk : Chunk Field) types n
    (accumulated : Block Field) :
  length (chunkColumns chunk) = n ->
  (n <= length types)%nat ->
  accumulated = [] \/ length accumulated = n ->
  exists appended,
    nappend chunk types accumulated = Ok (tt, appended)
    /\ (appended = [] \/ length appended = n)
    /\ forall i, columnData i appended = columnData i accumulated ++ chunkData i chunk.
Proof.
  intros Hn Ht Ha. rewrite new_squashing_append_eq.
  destruct (chunkColumns chunk) as [|c cols] eqn:Ec.
  - exists accumulated. split; [reflexivity|]. split; [exact Ha|].
    intros i. now rewrite (chunkData_nil_columns i chunk Ec), app_nil_r.
  - destruct accumulated as [|a accumulated].
    + destruct (insertChunkColumns_total (c :: cols) types O []) as (r & E & Hc);
        [cbn in *; lia|].
      rewrite E. cbn [app]. exists r. split; [reflexivity|]. split.
      * right. rewrite <- Hn, <- Hc. unfold getColumns. now rewrite length_map.
      * intros i. rewrite columnData_nil. unfold columnData, chunkData.
        now rewrite Hc, Ec.
    + destruct Ha as [Ha|Ha]; [discriminate|].
      destruct (insertRangeFromColumns_total (a :: accumulated) (c :: cols))
        as (r & E & Hs & _); [lia|].
      rewrite E. exists r. split; [reflexivity|]. split.
      * right. apply structure_length in Hs. lia.
      * intros i. unfold chunkData. rewrite Ec.
        apply (insertRangeFromColumns_data _ _ _ E). lia.
Qed.

Lemma new_squashing_appendAll_data (chunks : list (Chunk Field)) types n :
  Forall (fun chunk => length (chunkColumns chunk) = n) chunks ->
  (n <= length types)%nat ->
  forall accumulated : Block Field,
  accumulated = [] \/ length accumulated = n ->
  exists appended,
    appendAll chunks types accumulated = Ok (tt, appended)
    /\ (appended = [] \/ length appended = n)
    /\ forall i, columnData i appended
                 = columnData i accumulated ++ concatChunkColumn i chunks.
Proof.
  intros Hn Ht. induction Hn as [|chunk chunks Hc _ IH]; intros accumulated Ha.
  - exists accumulated. split; [reflexivity|]. split; [exact Ha|].
    intros i. cbn. now rewrite app_nil_r.
  - cbn [NewSquashingTransform.appendAll]. unfold bind.
    destruct (new_squashing_append_data chunk types n accumulated Hc Ht Ha)
      as (a1 & -> & Ha1 & Hd1).
    destruct (IH a1 Ha1) as (a2 & -> & Ha2 & Hd2).
    exists a2. split; [reflexivity|]. split; [exact Ha2|].
    intros i. rewrite Hd2, Hd1, <- app_assoc. reflexivity.
Qed.

(** [add] without the monad. *)
Lemma new_squashing_add_eq (chunk : Chunk Field) (accumulated : Block Field) :
  nadd chunk accumulated =
  match getChunkInfo chunk with
  | None => Ok (accumulated, [])
  | Some (ChunksToSquash chunks types) =>
      match appendAll chunks types accumulated with
      | Ok (_, appended) => Ok (appended, [])
      | Throw e => Throw e
      | Spin => Spin
      end
  | Some (BlocksToSquash _) => Throw NULL_DEREFERENCE
  end.
Proof.
  unfold NewSquashingTransform.add, NewSquashingTransform.addImpl,
    NewSquashingTransform.getInfoFromChunk, NewSquashingTransform.swapAndReturn,
    hasChunkInfo.
  destruct (getChunkInfo chunk) as [[chunks types|blocks]|]; cbn [negb];
    reflexivity.
Qed.

(** A chunk whose info is of another kind is not taken for the end of the
    stream: the null pointer that [getInfoFromChunk] returns is used. *)
Lemma new_squashing_other_info (chunk : Chunk Field) blocks (accumulated : Block Field) :
  getChunkInfo chunk = Some (BlocksToSquash blocks) ->
  nadd chunk accumulated = Throw NULL_DEREFERENCE.
Proof. intros E. now rewrite new_squashing_add_eq, E. Qed.

(** [add] on a marker whose chunks fit the buffer. *)
Lemma new_squashing_add_marker (chunk : Chunk Field) chunks types n
    (accumulated : Block Field) :
  getChunkInfo chunk = Some (ChunksToSquash chunks types) ->
  Forall (fun c => length (chunkColumns c) = n) chunks ->
  (n <= length types)%nat ->
  accumulated = [] \/ length accumulated = n ->
  exists returned,
    nadd chunk accumulated = Ok (returned, [])
    /\ forall i, columnData i returned
                 = columnData i accumulated ++ concatChunkColumn i chunks.
Proof.
  intros Hinfo Hn Ht Ha.
  rewrite new_squashing_add_eq, Hinfo.
  destruct (new_squashing_appendAll_data chunks types n Hn Ht accumulated Ha)
    as (appended & -> & _ & Hd).
  exists appended. split; [reflexivity | exact Hd].
Qed.

(** A chunk without columns is passed over by [append], so it may stand
    anywhere in the list of a marker; the data types are read only when the
    buffer is empty. *)
Lemma new_squashing_append_fits (chunk : Chunk Field) types n
    (accumulated : Block Field) :
  chunkColumns chunk = [] \/ length (chunkColumns chunk) = n ->
  (accumulated = [] -> (n <= length types)%nat) ->
  accumulated = [] \/ length accumulated = n ->
  exists appended,
    nappend chunk types accumulated = Ok (tt, appended)
    /\ (appended = [] \/ length appended = n)
    /\ (appended = [] -> accumulated = [])
    /\ forall i, columnData i appended = columnData i accumulated ++ chunkData i chunk.
Proof.
  intros [Hc|Hc] Ht Ha.
  - rewrite new_squashing_append_eq, Hc.
    exists accumulated. split; [reflexivity|]. split; [exact Ha|].
    split; [auto|].
    intros i. now rewrite (chunkData_nil_columns i chunk Hc), app_nil_r.
  - destruct accumulated as [|a accumulated].
    + destruct (new_squashing_append_data chunk types n [] Hc (Ht eq_refl) Ha)
        as (appended & E & Hlen & Hd).
      exists appended. auto.
    + destruct Ha as [Ha|Ha]; [discriminate|].
      rewrite new_squashing_append_eq.
      destruct (chunkColumns chunk) as [|c cols] eqn:Ec.
      * exists (a :: accumulated). split; [reflexivity|]. split; [auto|].
        split; [auto|].
        intros i. now rewrite (chunkData_nil_columns i chunk Ec), app_nil_r.
      * destruct (insertRangeFromColumns_total (a :: accumulated) (c :: cols))
          as (r & E & Hs & _); [lia|].
        rewrite E. apply structure_length in Hs.
        exists r. split; [reflexivity|]. split; [right; lia|]. split.
        -- intros ->. discriminate.
        -- intros i. unfold chunkData. rewrite Ec.
           apply (insertRangeFromColumns_data _ _ _ E). lia.
Qed.

Lemma new_squashing_appendAll_fits (chunks : list (Chunk Field)) types n :
  Forall (fun chunk => chunkColumns chunk = [] \/ length (chunkColumns chunk) = n)
    chunks ->
  forall accumulated : Block Field,
  (accumulated = [] -> (n <= length types)%nat) ->
  accumulated = [] \/ length accumulated = n ->
  exists appended,
    appendAll chunks types accumulated = Ok (tt, appended)
    /\ (appended = [] \/ length appended = n)
    /\ forall i, columnData i appended
                 = columnData i accumulated ++ concatChunkColumn i chunks.
Proof.
  intros Hn. induction Hn as [|chunk chunks Hc _ IH]; intros accumulated Ht Ha.
  - exists accumulated. split; [reflexivity|]. split; [exact Ha|].
    intros i. cbn. now rewrite app_nil_r.
  - cbn [NewSquashingTransform.appendAll]. unfold bind.
    destruct (new_squashing_append_fits chunk types n accumulated Hc Ht Ha)
      as (a1 & -> & Ha1 & Hempty & Hd1).
    destruct (IH a1 (fun E => Ht (Hempty E)) Ha1) as (a2 & -> & Ha2 & Hd2).
    exists a2. split; [reflexivity|]. split; [exact Ha2|].
    intros i. rewrite Hd2, Hd1, <- app_assoc. reflexivity.
Qed.

(** C9, as the code has it. On a chunk with a [ChunksToSquash] info whose
    chunks have no columns or [n] columns each, and a buffer that has [n]
    columns, or is empty with a data type for each of the [n], [add] returns
    the buffer followed by the chunks of the list in their order, column by
    column, whatever the sizes (no threshold is read); on a chunk without
    any info it returns the buffer as it is; whenever [add] returns, the
    buffer is empty afterwards. *)
Theorem new_squashing_add_flushes (chunk : Chunk Field) (accumulated : Block Field) :
  (forall chunks types n,
      getChunkInfo chunk = Some (ChunksToSquash chunks types) ->
      Forall (fun c => chunkColumns c = [] \/ length (chunkColumns c) = n) chunks ->
      accumulated = [] \/ length accumulated = n ->
      (accumulated = [] -> (n <= length types)%nat) ->
      exists returned,
        nadd chunk accumulated = Ok (returned, [])
        /\ (returned = [] \/ length returned = n)
        /\ forall i, columnData i returned
                     = columnData i accumulated ++ concatChunkColumn i chunks)
  /\ (getChunkInfo chunk = None -> nadd chunk accumulated = Ok (accumulated, []))
  /\ (forall returned accumulated',
         nadd chunk accumulated = Ok (returned, accumulated') -> accumulated' = []).
Proof.
  split; [|split].
  - intros chunks types n Hinfo Hn Ha Ht.
    rewrite new_squashing_add_eq, Hinfo.
    destruct (new_squashing_appendAll_fits chunks types n Hn accumulated Ht Ha)
      as (appended & -> & Hlen & Hd).
    exists appended. split; [reflexivity|]. split; [exact Hlen | exact Hd].
  - intros Hinfo. rewrite new_squashing_add_eq.
    destruct (getChunkInfo chunk); [discriminate | reflexivity].
  - intros returned accumulated' E. rewrite new_squashing_add_eq in E.
    destruct (getChunkInfo chunk) as [[chunks types|blocks]|]; try discriminate.
    + destruct (appendAll chunks types accumulated) as [[[] appended]| |];
        try discriminate.
      now injection E as _ <-.
    + now injection E as _ <-.
Qed.

End NewSquashingFacts.

(** ** The balancer feeding the squasher *)

Section PipelineFacts.
Context {Field : Type} `{IColumn Field}.
Variable header : Block Field.
Variables min_rows min_bytes : Z.
Variable memory_tracker : MemoryTracker.
Variable budget : nat.
Hypothesis no_hard_limit : getHardLimit memory_tracker = 0.

Abbreviation pstate := (@BalanceTransform.state Field).
Abbreviation padd := (BalanceTransform.add header min_rows min_bytes memory_tracker budget).
Abbreviation pipeline :=
  (BalanceTransform.pipeline header min_rows min_bytes memory_tracker budget).
Abbreviation enough := (BalanceTransform.pendingEnough min_rows min_bytes).
Abbreviation pending := (@BalanceTransform.chunks_to_merge_vec Field).
Abbreviation balanced := (BalanceTransform.balanced header min_rows min_bytes).

(** Without a hard limit the memory check returns at once. *)
Lemma memory_gate_open bytes k :
  checkAndWaitMemoryAvailability memory_tracker budget bytes k = Some k.
Proof.
  unfold checkAndWaitMemoryAvailability. now rewrite no_hard_limit.
Qed.

Lemma concatChunkColumn_app i (l1 l2 : list (Chunk Field)) :
  concatChunkColumn i (l1 ++ l2) = concatChunkColumn i l1 ++ concatChunkColumn i l2.
Proof. unfold concatChunkColumn. apply flat_map_app. Qed.

Lemma structure_getDataTypes (lhs rhs : Block Field) :
  structure lhs = structure rhs -> getDataTypes lhs = getDataTypes rhs.
Proof.
  intros E. apply (f_equal (map fst)) in E.
  unfold structure, getDataTypes in *. now rewrite !map_map in E.
Qed.

Lemma newChunk_batch (c : ColumnWithTypeAndName Field) (block : Block Field) :
  batchOf header (c :: block) = true ->
  newChunk (getColumns (c :: block)) (rows (c :: block)) None
  = Ok (mkChunk (getColumns (c :: block)) (rows (c :: block)) None).
Proof.
  cbn [batchOf]. rewrite andb_true_iff. intros [_ Hc].
  unfold newChunk.
  replace (checkNumRowsIsConsistent (getColumns (c :: block)) (rows (c :: block)))
    with true; [reflexivity|].
  symmetry. unfold checkNumRowsIsConsistent, getColumns.
  unfold consistentRows in Hc. rewrite forallb_forall in *.
  intros x Hin. apply in_map_iff in Hin. destruct Hin as (y & <- & Hy). auto.
Qed.

(** One call of the balancer on a batch: it returns, the invariant is kept,
    and either the chunk carries the pending chunks followed by the batch and
    nothing stays pending, or it carries no info and the batch has joined
    the pending chunks. *)
Lemma balance_add_batch (input : Block Field) (s : pstate) :
  balanced s ->
  batchOf header input = true ->
  exists chunk s',
    padd input s = Ok (chunk, s')
    /\ balanced s'
    /\ match getChunkInfo chunk with
       | Some (ChunksToSquash chunks types) =>
           types = getDataTypes header
           /\ Forall (fun x => length (chunkColumns x) = length header) chunks
           /\ pending s' = []
           /\ forall i, concatChunkColumn i chunks
                        = concatChunkColumn i (pending s) ++ columnData i input
       | Some (BlocksToSquash _) => False
       | None =>
           forall i, concatChunkColumn i (pending s')
                     = concatChunkColumn i (pending s) ++ columnData i input
       end.
Proof.
  intros [Hcols Hinv] Hin.
  destruct input as [|c block].
  - rewrite balance_add_nil, balance_convertToChunk_eq.
    destruct (pending s) as [|p ps] eqn:Ep.
    + exists emptyChunk, s. split; [reflexivity|]. split.
      * split; rewrite Ep; auto.
      * cbn. intros i. rewrite Ep. now destruct i.
    + destruct Hinv as [Hinv|[_ Ht]]; [discriminate|].
      eexists _, _. split; [reflexivity|]. split.
      * split; cbn; auto.
      * cbn [getChunkInfo BalanceTransform.chunks_to_merge_vec].
        repeat split; auto.
        intros i. rewrite columnData_nil, app_nil_r. reflexivity.
  - rewrite balance_add_cons, (newChunk_batch _ _ Hin). cbn zeta.
    rewrite !memory_gate_open.
    apply batchOf_cons in Hin. destruct Hin as [Hs _].
    assert (Hkept : (if enough (pending s) then [] else pending s) = pending s).
    { destruct Hinv as [->|[-> _]]; [destruct (enough []); reflexivity | reflexivity]. }
    rewrite Hkept.
    set (made := mkChunk (getColumns (c :: block)) (rows (c :: block)) None).
    assert (Hmade : length (chunkColumns made) = length header).
    { cbn [made chunkColumns]. unfold getColumns. rewrite length_map.
      now apply structure_length. }
    assert (Hall : Forall (fun x => length (chunkColumns x) = length header)
                     (pending s ++ [made])).
    { apply Forall_app. split; [exact Hcols | constructor; [exact Hmade | constructor]]. }
    assert (Hdata : forall i, concatChunkColumn i (pending s ++ [made])
                              = concatChunkColumn i (pending s)
                                ++ columnData i (c :: block)).
    { intros i. rewrite concatChunkColumn_app. f_equal.
      cbn [concatChunkColumn flat_map]. now rewrite app_nil_r. }
    destruct (enough (pending s ++ [made])) eqn:Ee.
    + eexists _, _. split; [reflexivity|]. split.
      * split; cbn; auto.
      * cbn [getChunkInfo]. repeat split; auto.
        now apply structure_getDataTypes.
    + eexists _, _. split; [reflexivity|]. split.
      * split; cbn [BalanceTransform.chunks_to_merge_vec BalanceTransform.data_types];
          [exact Hall|].
        right. split; [exact Ee | now apply structure_getDataTypes].
      * cbn [made getChunkInfo BalanceTransform.chunks_to_merge_vec]. exact Hdata.
Qed.

Lemma pipeline_cons input inputs (s : pstate) (squashing : Block Field) :
  pipeline (input :: inputs) s squashing =
  match padd input s with
  | Ok (chunk, s') =>
      if hasChunkInfo chunk
      then match NewSquashingTransform.add chunk squashing with
           | Ok (block, squashing') =>
               match pipeline inputs s' squashing' with
               | Ok (rest, final) => Ok (block :: rest, final)
               | Throw e => Throw e
               | Spin => Spin
               end
           | Throw e => Throw e
           | Spin => Spin
           end
      else pipeline inputs s' squashing
  | Throw e => Throw e
  | Spin => Spin
  end.
Proof. reflexivity. Qed.

(** A stream of batches goes through the balancer and the squasher; the
    blocks that come out, followed by what is still pending, hold what was
    pending followed by the stream; the squasher keeps nothing. *)
Lemma pipeline_batches inputs :
  forall s : pstate,
  balanced s ->
  forallb (batchOf header) inputs = true ->
  exists returned s',
    pipeline inputs s [] = Ok (returned, (s', []))
    /\ balanced s'
    /\ forall i, concatColumn i returned ++ concatChunkColumn i (pending s')
                 = concatChunkColumn i (pending s) ++ concatColumn i inputs.
Proof.
  induction inputs as [|input inputs IH]; intros s Hs Hin.
  - exists [], s. split; [reflexivity|]. split; [exact Hs|].
    intros i. cbn. now rewrite app_nil_r.
  - cbn [forallb] in Hin. apply andb_true_iff in Hin. destruct Hin as [Hi Hin].
    rewrite pipeline_cons.
    destruct (balance_add_batch input s Hs Hi) as (chunk & s1 & -> & Hs1 & Hchunk).
    unfold hasChunkInfo.
    destruct (IH s1 Hs1 Hin) as (rest & s2 & E2 & Hs2 & Hd2).
    destruct (getChunkInfo chunk) as [[chunks types|blocks]|] eqn:Einfo;
      [| contradiction |].
    + destruct Hchunk as (-> & Hcols & Hp1 & Hd1).
      destruct (new_squashing_add_marker chunk chunks (getDataTypes header)
                  (length header) [] Einfo Hcols)
        as (block & -> & Hblock);
        [unfold getDataTypes; rewrite length_map; lia | auto |].
      rewrite E2. exists (block :: rest), s2. split; [reflexivity|].
      split; [exact Hs2|].
      intros i. cbn [concatColumn flat_map]. fold (concatColumn i rest).
      fold (concatColumn i inputs).
      rewrite <- app_assoc, Hd2, Hp1. cbn [concatChunkColumn flat_map app].
      rewrite Hblock, columnData_nil, Hd1. cbn [app].
      now rewrite app_assoc.
    + rewrite E2. exists rest, s2. split; [reflexivity|]. split; [exact Hs2|].
      intros i. rewrite Hd2, Hchunk.
      cbn [concatColumn flat_map]. now rewrite app_assoc.
Qed.

(** After the sentinel nothing is pending. *)
Lemma balance_add_sentinel_drains (s : pstate) chunk s' :
  padd [] s = Ok (chunk, s') -> pending s' = [].
Proof.
  rewrite balance_add_nil, balance_convertToChunk_eq.
  destruct (pending s) eqn:Ep; intros E; injection E as <- <-; auto.
Qed.

Lemma pipeline_app inputs1 inputs2 :
  forall (s : pstate) (squashing : Block Field) returned1 s1 squashing1,
  pipeline inputs1 s squashing = Ok (returned1, (s1, squashing1)) ->
  pipeline (inputs1 ++ inputs2) s squashing =
  match pipeline inputs2 s1 squashing1 with
  | Ok (returned2, final) => Ok (returned1 ++ returned2, final)
  | Throw e => Throw e
  | Spin => Spin
  end.
Proof.
  induction inputs1 as [|input inputs1 IH];
    intros s squashing returned1 s1 squashing1 E.
  - injection E as <- <- <-. cbn [app].
    destruct (pipeline inputs2 s squashing) as [[? ?]| |]; reflexivity.
  - cbn [app]. rewrite pipeline_cons in *.
    destruct (padd input s) as [[chunk s0]| |]; try discriminate.
    destruct (hasChunkInfo chunk).
    + destruct (NewSquashingTransform.add chunk squashing) as [[block q]| |];
        try discriminate.
      destruct (pipeline inputs1 s0 q) as [[rest [sf qf]]| |] eqn:Er;
        try discriminate.
      injection E as <- <- <-.
      rewrite (IH _ _ _ _ _ Er).
      destruct (pipeline inputs2 sf qf) as [[? ?]| |]; reflexivity.
    + now apply IH.
Qed.

Lemma pipeline_sentinel_drains inputs :
  forall (s : pstate) (squashing : Block Field) returned s' squashing',
  pipeline (inputs ++ [[]]) s squashing = Ok (returned, (s', squashing')) ->
  pending s' = [].
Proof.
  induction inputs as [|input inputs IH]; intros s squashing returned s' squashing' E.
  - cbn [app BalanceTransform.pipeline] in E.
    destruct (padd [] s) as [[chunk s0]| |] eqn:Ea; try discriminate.
    apply balance_add_sentinel_drains in Ea.
    destruct (hasChunkInfo chunk).
    + destruct (NewSquashingTransform.add chunk squashing) as [[block q]| |];
        try discriminate.
      cbn in E. injection E as <- <- <-. exact Ea.
    + cbn in E. injection E as <- <- <-. exact Ea.
  - cbn [app] in E. rewrite pipeline_cons in E.
    destruct (padd input s) as [[chunk s0]| |]; try discriminate.
    destruct (hasChunkInfo chunk).
    + destruct (NewSquashingTransform.add chunk squashing) as [[block q]| |];
        try discriminate.
      destruct (pipeline (inputs ++ [[]]) s0 q) as [[rest [sf qf]]| |] eqn:Er;
        try discriminate.
      injection E as <- <- <-. eapply IH; exact Er.
    + eapply IH; exact E.
Qed.

Lemma balanced_init : balanced BalanceTransform.init.
Proof. split; cbn; auto. Qed.

End PipelineFacts.

(** C3, as the code has it. For a stream of batches of one layout followed
    by the sentinel, with the same thresholds and no hard limit on memory,
    the blocks that the balancer and the squasher behind it return hold,
    column by column and row by row, the same values in the same order as
    the blocks that [SquashingTransform] returns, and nothing stays behind;
    how the rows are cut into blocks is not the same. *)
Theorem balanced_pipeline_same_rows {Field : Type} `{IColumn Field}
    (header : Block Field) (min_rows min_bytes : Z)
    (memory_tracker : MemoryTracker) (budget : nat) (inputs : list (Block Field)) :
  getHardLimit memory_tracker = 0 ->
  forallb (batchOf header) inputs = true ->
  exists from_pipeline from_squashing s',
    BalanceTransform.pipeline header min_rows min_bytes memory_tracker budget
      (inputs ++ [[]]) BalanceTransform.init NewSquashingTransform.init
    = Ok (from_pipeline, (s', []))
    /\ SquashingTransform.run min_rows min_bytes (inputs ++ [[]])
         SquashingTransform.init = Ok (from_squashing, [])
    /\ BalanceTransform.isDataLeft s' = false
    /\ forall i, concatColumn i from_pipeline = concatColumn i from_squashing.
Proof.
  intros Hlimit Hin.
  assert (Hall : forallb (batchOf header) (inputs ++ [[]]) = true).
  { rewrite forallb_app, Hin. reflexivity. }
  destruct (pipeline_batches header min_rows min_bytes memory_tracker budget Hlimit
              (inputs ++ [[]]) BalanceTransform.init
              (balanced_init header min_rows min_bytes) Hall)
    as (from_pipeline & s' & Ep & _ & Hp).
  pose proof (pipeline_sentinel_drains header min_rows min_bytes memory_tracker
                budget inputs _ _ _ _ _ Ep) as Hdrained.
  destruct (squashing_run_total min_rows min_bytes header (inputs ++ [[]])
              SquashingTransform.init eq_refl Hall) as (from_squashing & final & Es & _).
  pose proof (squashing_run_sentinel_drains _ _ _ _ _ _ Es) as ->.
  pose proof (squashing_run_data min_rows min_bytes _ _ _ _ Es) as Hs.
  exists from_pipeline, from_squashing, s'.
  split; [exact Ep|]. split; [exact Es|]. split.
  - unfold BalanceTransform.isDataLeft. now rewrite Hdrained.
  - intros i. specialize (Hp i).
    rewrite Hdrained in Hp. cbn [BalanceTransform.init
      BalanceTransform.chunks_to_merge_vec concatChunkColumn flat_map app] in Hp.
    rewrite app_nil_r in Hp. rewrite Hp.
    specialize (Hs i). rewrite columnData_nil, app_nil_r in Hs.
    unfold SquashingTransform.init in Hs. rewrite columnData_nil in Hs.
    symmetry. exact Hs.
Qed.

Lemma balanced_pipeline_same_rows_witness :
  getHardLimit unlimited_tracker = 0
  /\ forallb (batchOf sample_header) [small_block; large_block; small_block] = true
  /\ exists from_pipeline from_squashing s',
       BalanceTransform.pipeline sample_header 4 0 unlimited_tracker 1
         ([small_block; large_block; small_block] ++ [[]])
         BalanceTransform.init NewSquashingTransform.init
       = Ok (from_pipeline, (s', []))
       /\ SquashingTransform.run 4 0 ([small_block; large_block; small_block] ++ [[]])
            SquashingTransform.init = Ok (from_squashing, [])
       /\ BalanceTransform.isDataLeft s' = false
       /\ forall i, concatColumn i from_pipeline = concatColumn i from_squashing.
Proof.
  split; [reflexivity|]. split; [reflexivity|].
  apply (balanced_pipeline_same_rows sample_header 4 0 unlimited_tracker 1);
    reflexivity.
Defined.

(** C3 as it is written fails. With [min_block_size_rows = 4], on two rows
    and then five rows [SquashingTransform] has returned the two rows and
    keeps the five, while the balancer and its squasher have returned the
    seven rows in one block; with the sentinel after them the first returns
    two blocks, of two and of five rows, and the second that one block of
    seven. *)
Lemma balanced_pipeline_groups_differently :
  SquashingTransform.run 4 0 [small_block; large_block] SquashingTransform.init
  = Ok ([[]; small_block], large_block)
  /\ (exists s', BalanceTransform.pipeline sample_header 4 0 unlimited_tracker 1
                   [small_block; large_block]
                   BalanceTransform.init NewSquashingTransform.init
                 = Ok ([merged_block], (s', [])))
  /\ concatColumn 0 [[]; small_block] = [1; 2]
  /\ concatColumn 0 [merged_block] = [1; 2; 3; 4; 5; 6; 7]
  /\ SquashingTransform.run 4 0 [small_block; large_block; []] SquashingTransform.init
     = Ok ([[]; small_block; large_block], [])
  /\ (exists s', BalanceTransform.pipeline sample_header 4 0 unlimited_tracker 1
                   [small_block; large_block; []]
                   BalanceTransform.init NewSquashingTransform.init
                 = Ok ([merged_block], (s', []))).
Proof.
  split; [reflexivity|]. split; [eexists; lazy; reflexivity|].
  split; [reflexivity|]. split; [reflexivity|]. split; [reflexivity|].
  eexists; lazy; reflexivity.
Qed.

(** C9 as it is written fails. The balancer hands a block of one column and
    a block of two columns over in one marker; on that marker [add] returns
    one column, and the second column of the second chunk is in no block.
    A chunk whose info is not a list of chunks carries no marker, and [add]
    does not return the buffer for it. *)
Lemma new_squashing_marker_drops_column :
  (exists final,
      BalanceTransform.pipeline (blockOf [[]]) 2 0 unlimited_tracker 1
        [blockOf [[1]]; blockOf [[2]; [3]]]
        BalanceTransform.init NewSquashingTransform.init
      = Ok ([uneven_squashed], final))
  /\ NewSquashingTransform.add uneven_marker [] = Ok (uneven_squashed, [])
  /\ getChunkInfo uneven_marker
     = Some (ChunksToSquash [mkChunk [[1]] 1 None; mkChunk [[2]; [3]] 1 None]
               ["UInt64"%string; "UInt64"%string])
  /\ concatChunkColumn 1 [mkChunk [[1]] 1 None; mkChunk [[2]; [3]] 1 None] = [3]
  /\ columnData 1 uneven_squashed = []
  /\ NewSquashingTransform.getInfoFromChunk sample_block_marker = None
  /\ NewSquashingTransform.add sample_block_marker merged_block
     = Throw NULL_DEREFERENCE.
Proof.
  split; [eexists; lazy; reflexivity|]. repeat split.
Qed.

Lemma new_squashing_add_flushes_witness :
  NewSquashingTransform.add sample_marker [] = Ok (merged_block, [])
  /\ (exists returned,
         NewSquashingTransform.add sample_marker [] = Ok (returned, [])
         /\ (returned = [] \/ length returned = 2%nat)
         /\ forall i, columnData i returned
                      = columnData i []
                        ++ concatChunkColumn i
                             [small_chunk; mkChunk (getColumns large_block) 5 None])
  /\ NewSquashingTransform.add (@emptyChunk Z) merged_block = Ok (merged_block, [])
  /\ (exists returned accumulated',
         NewSquashingTransform.add sample_marker [] = Ok (returned, accumulated')
         /\ accumulated' = []).
Proof.
  split; [reflexivity|]. split; [|split].
  - apply (proj1 (new_squashing_add_flushes sample_marker [])
             _ (getDataTypes sample_header) 2%nat eq_refl).
    + constructor; [right; reflexivity|].
      constructor; [right; reflexivity|]. constructor.
    + left. reflexivity.
    + intros _. cbn. lia.
  - apply (proj1 (proj2 (new_squashing_add_flushes emptyChunk merged_block))).
    reflexivity.
  - exists merged_block, []. split; [reflexivity|].
    apply (proj2 (proj2 (new_squashing_add_flushes sample_marker []))
             merged_block []).
    reflexivity.
Defined.

(** * Further properties of the code *)

(** ** SquashingTransform *)

Section SquashingMore.
Context {Field : Type} `{IColumn Field}.
Variables min_rows min_bytes : Z.

Abbreviation isEnoughSizeBlock := (SquashingTransform.isEnoughSizeBlock min_rows min_bytes).
Abbreviation add := (SquashingTransform.add min_rows min_bytes).
Abbreviation run := (SquashingTransform.run min_rows min_bytes).

(** The scan of [isEnoughSize(const Block &)] starts again at every empty
    column in front: [rows] is still 0 after it. *)
Lemma sizesOfColumns_skip (block : Block Field) :
  forall bytes, exists bytes',
    SquashingTransform.sizesOfColumns block 0 bytes
    = match skipEmptyColumns block with
      | [] => Ok (0, bytes')
      | c :: rest =>
          SquashingTransform.sizesOfColumns rest (size (column c)) bytes'
      end.
Proof.
  induction block as [|c block IH]; intros bytes.
  - exists bytes. reflexivity.
  - cbn [SquashingTransform.sizesOfColumns skipEmptyColumns Z.eqb].
    destruct (size (column c) =? 0) eqn:Ec.
    + apply Z.eqb_eq in Ec. rewrite Ec. apply IH.
    + eexists. reflexivity.
Qed.

Lemma sizesOfColumns_after_first (rest : Block Field) n bytes :
  n <> 0 ->
  if forallb (fun x => size (column x) =? n) rest
  then exists bytes', SquashingTransform.sizesOfColumns rest n bytes = Ok (n, bytes')
  else SquashingTransform.sizesOfColumns rest n bytes
       = Throw SIZES_OF_COLUMNS_DOESNT_MATCH.
Proof.
  intros Hn.
  destruct (forallb (fun x => size (column x) =? n) rest) eqn:Eall.
  - rewrite forallb_forall in Eall.
    assert (Hall : Forall (fun x => size (column x) = n) rest).
    { apply Forall_forall. intros x Hx. apply Z.eqb_eq. auto. }
    destruct (sizesOfColumns_consistent rest n Hall n bytes) as (b' & E); [auto|].
    exists b'. rewrite E. destruct rest; reflexivity.
  - apply sizesOfColumns_mismatch; [exact Hn|].
    apply Exists_exists.
    assert (Hnot : ~ forall x, In x rest -> (size (column x) =? n) = true).
    { intros Hall. apply forallb_forall in Hall. congruence. }
    induction rest as [|x rest IH]; [exfalso; apply Hnot; intros ? []|].
    cbn [forallb] in Eall. apply andb_false_iff in Eall.
    destruct (size (column x) =? n) eqn:Ex.
    + destruct Eall as [Eall|Eall]; [discriminate|].
      destruct IH as (y & Hy & Hne); [exact Eall | |].
      * intros Hall. apply forallb_forall in Hall. congruence.
      * exists y. split; [right; exact Hy | exact Hne].
    + exists x. split; [left; reflexivity | now apply Z.eqb_neq].
Qed.

(** X1. [isEnoughSize(const Block &)] throws exactly when, after the empty
    columns in front, a column has another size than the first one that is
    not empty; it throws nothing else, and otherwise it answers. *)
Theorem column_sizes_exception_iff (block : Block Field) :
  (isEnoughSizeBlock block = Throw SIZES_OF_COLUMNS_DOESNT_MATCH
   <-> sizesDiffer block = true)
  /\ (sizesDiffer block = false -> exists enough, isEnoughSizeBlock block = Ok enough)
  /\ (forall e, isEnoughSizeBlock block = Throw e -> e = SIZES_OF_COLUMNS_DOESNT_MATCH).
Proof.
  unfold SquashingTransform.isEnoughSizeBlock, sizesDiffer.
  destruct (sizesOfColumns_skip block 0) as (bytes' & ->).
  destruct (skipEmptyColumns block) as [|c rest] eqn:Eskip.
  - repeat split; try discriminate. eexists; reflexivity.
  - assert (Hc : size (column c) <> 0).
    { clear - Eskip. induction block as [|x block IH]; [discriminate|].
      cbn [skipEmptyColumns] in Eskip.
      destruct (size (column x) =? 0) eqn:Ex; [auto|].
      injection Eskip as -> _. now apply Z.eqb_neq. }
    pose proof (sizesOfColumns_after_first rest (size (column c)) bytes' Hc) as Hrest.
    destruct (forallb (fun x => size (column x) =? size (column c)) rest).
    + destruct Hrest as (b' & ->). cbn [negb].
      repeat split; try discriminate. eexists; reflexivity.
    + rewrite Hrest. cbn [negb].
      repeat split; try discriminate; try reflexivity.
      intros e E. now injection E as <-.
Qed.

(** X2. With both thresholds zero nothing is ever accumulated: every block
    of a stream whose column sizes pass the check is returned by its own
    call, as it is, and the buffer stays empty. *)
Theorem squashing_pass_through (inputs : list (Block Field)) :
  forallb (fun block => negb (sizesDiffer block)) inputs = true ->
  SquashingTransform.run 0 0 inputs SquashingTransform.init = Ok (inputs, []).
Proof.
  unfold SquashingTransform.init.
  induction inputs as [|input inputs IH]; intros Hin; [reflexivity|].
  cbn [forallb] in Hin. apply andb_true_iff in Hin. destruct Hin as [Hi Hin].
  rewrite squashing_run_cons, squashing_add_eq.
  destruct input as [|c input].
  - rewrite (IH Hin). reflexivity.
  - apply negb_true_iff in Hi.
    destruct (sizesOfColumns_skip (c :: input) 0) as (bytes' & Eskip).
    unfold SquashingTransform.isEnoughSizeBlock, sizesDiffer in *.
    rewrite Eskip.
    destruct (skipEmptyColumns (c :: input)) as [|x rest] eqn:Ex.
    + cbn. rewrite (IH Hin). reflexivity.
    + assert (Hx : size (column x) <> 0).
      { clear - Ex. revert Ex. generalize (c :: input). intros block.
        induction block as [|y block IH]; [discriminate|].
        cbn [skipEmptyColumns].
        destruct (size (column y) =? 0) eqn:Ey; [auto|].
        intros E. injection E as -> _. now apply Z.eqb_neq. }
      pose proof (sizesOfColumns_after_first rest (size (column x)) bytes' Hx) as Hrest.
      apply negb_false_iff in Hi. rewrite Hi in Hrest.
      destruct Hrest as (b' & ->). cbn. rewrite (IH Hin). reflexivity.
Qed.

(** X3. A block that is enough on its own is never merged with its
    neighbours: it is returned as it is, by the call that reads it when the
    buffer is empty, and otherwise by the next call, whatever that call
    reads. *)
Theorem squashing_large_block_not_merged
    (input accumulated next r1 a1 r2 a2 : Block Field) :
  input <> [] ->
  isEnoughSizeBlock input = Ok true ->
  add input accumulated = Ok (r1, a1) ->
  add next a1 = Ok (r2, a2) ->
  (accumulated = [] /\ r1 = input /\ a1 = [])
  \/ (accumulated <> [] /\ r1 = accumulated /\ a1 = input /\ r2 = input).
Proof.
  intros Hne Hi E1 E2. rewrite squashing_add_eq in E1.
  destruct input as [|c input]; [congruence|]. rewrite Hi in E1.
  destruct accumulated as [|a accumulated]; injection E1 as <- <-; [auto|].
  right. repeat split; try discriminate.
  rewrite squashing_add_eq in E2.
  destruct next as [|n next]; [now injection E2 as <- _|].
  destruct (isEnoughSizeBlock (n :: next)) as [[|]| |]; try discriminate.
  - now injection E2 as <- _.
  - rewrite Hi in E2. now injection E2 as <- _.
Qed.

(** One call on batches of one layout returns a batch of that layout. *)
Lemma squashing_add_keeps_layout header (input accumulated returned accumulated' : Block Field) :
  batchOf header accumulated = true ->
  batchOf header input = true ->
  add input accumulated = Ok (returned, accumulated') ->
  batchOf header returned = true /\ batchOf header accumulated' = true.
Proof.
  intros Ha Hi E. rewrite squashing_add_eq in E.
  destruct input as [|c input]; [injection E as <- <-; auto|].
  destruct (isEnoughSizeBlock (c :: input)) as [[|]| |]; try discriminate.
  { destruct accumulated; injection E as <- <-; auto. }
  destruct (isEnoughSizeBlock accumulated) as [[|]| |]; try discriminate.
  { injection E as <- <-; auto. }
  destruct (squashing_append_batch header (c :: input) accumulated Ha Hi)
    as (appended & Ea & Hb); [discriminate|].
  rewrite Ea in E.
  destruct (isEnoughSizeBlock appended) as [[|]| |]; try discriminate;
    injection E as <- <-; auto.
Qed.

(** X4. On a stream of batches of one layout every block that [add] returns
    is the empty block or has the types and names of that layout and columns
    of one size, and so has the buffer at the end. *)
Theorem squashing_outputs_keep_layout header (inputs : list (Block Field)) :
  forall accumulated returned final,
  batchOf header accumulated = true ->
  forallb (batchOf header) inputs = true ->
  run inputs accumulated = Ok (returned, final) ->
  forallb (batchOf header) returned = true /\ batchOf header final = true.
Proof.
  induction inputs as [|input inputs IH]; intros accumulated returned final Ha Hin E.
  - injection E as <- <-. auto.
  - cbn [forallb] in Hin. apply andb_true_iff in Hin. destruct Hin as [Hi Hin].
    rewrite squashing_run_cons in E.
    destruct (add input accumulated) as [[r a1]| |] eqn:Ea; try discriminate.
    destruct (run inputs a1) as [[rest f]| |] eqn:Er; try discriminate.
    injection E as <- <-.
    destruct (squashing_add_keeps_layout header _ _ _ _ Ha Hi Ea) as [Hr Ha1].
    destruct (IH _ _ _ Ha1 Hin Er) as [Hrest Hf].
    cbn [forallb]. now rewrite Hr, Hrest.
Qed.

End SquashingMore.

(** ** The memory check *)

Lemma waitForMemory_first memory_tracker hard_limit bytes budget :
  forall k k',
  waitForMemory memory_tracker hard_limit bytes budget k = Some k' ->
  (k < k' <= k + budget)%nat
  /\ forall j, (k <= j < k' - 1)%nat ->
       Int64_sub (Z.b2z hard_limit) (get memory_tracker j) <= toInt64 bytes.
Proof.
  induction budget as [|budget IH]; intros k k' E; cbn in E; [discriminate|].
  destruct (toInt64 bytes >=? Int64_sub (Z.b2z hard_limit) (get memory_tracker k))
    eqn:Ecmp.
  - destruct (IH _ _ E) as [Hk Hbefore]. split; [lia|].
    intros j Hj. destruct (Nat.eq_dec j k) as [->|Hjk]; [lia|].
    apply Hbefore. lia.
  - injection E as <-. split; [lia|]. intros j Hj. lia.
Qed.

Lemma waitForMemory_found memory_tracker hard_limit bytes :
  forall j budget k,
  (j < budget)%nat ->
  (forall i, (i < j)%nat ->
     Int64_sub (Z.b2z hard_limit) (get memory_tracker (k + i)) <= toInt64 bytes) ->
  toInt64 bytes < Int64_sub (Z.b2z hard_limit) (get memory_tracker (k + j)) ->
  waitForMemory memory_tracker hard_limit bytes budget k = Some (S (k + j)).
Proof.
  induction j as [|j IH]; intros budget k Hj Hbefore Hfree;
    (destruct budget as [|budget]; [lia|]); cbn [waitForMemory].
  - rewrite Nat.add_0_r in *.
    replace (toInt64 bytes >=? _) with false
      by (symmetry; rewrite Z.geb_leb; apply Z.leb_gt; lia).
    reflexivity.
  - replace (toInt64 bytes >=? Int64_sub (Z.b2z hard_limit) (get memory_tracker k))
      with true.
    + rewrite (IH budget (S k)); [f_equal; lia | lia | |].
      * intros i Hi. replace (S k + i)%nat with (k + S i)%nat by lia.
        apply Hbefore. lia.
      * now replace (S k + j)%nat with (k + S j)%nat by lia.
    + symmetry. apply Z.geb_le.
      specialize (Hbefore O ltac:(lia)). now rewrite Nat.add_0_r in Hbefore.
Qed.

(** X5. Under a hard limit, whatever its value, the memory check reads the
    tracker until a read leaves room, that is until [Int64(bytes)] is less
    than [1 - get()], and returns right after the first such read: it
    returns after read [k + j] exactly when that read is within the budget,
    leaves room, and no read before it does. *)
Theorem memory_gate_returns_at_first_free_read memory_tracker budget bytes k j :
  getHardLimit memory_tracker <> 0 ->
  checkAndWaitMemoryAvailability memory_tracker budget bytes k = Some (S (k + j))
  <-> ((j < budget)%nat
       /\ toInt64 bytes < Int64_sub 1 (get memory_tracker (k + j))
       /\ forall i, (i < j)%nat ->
            Int64_sub 1 (get memory_tracker (k + i)) <= toInt64 bytes).
Proof.
  intros Hlimit. unfold checkAndWaitMemoryAvailability.
  replace (getHardLimit memory_tracker =? 0) with false
    by (symmetry; now apply Z.eqb_neq).
  cbn [negb]. split.
  - intros E.
    destruct (waitForMemory_first _ _ _ _ _ _ E) as [Hk Hbefore].
    destruct (waitForMemory_returns _ _ _ _ _ _ E) as [_ Hfree].
    replace (S (k + j) - 1)%nat with (k + j)%nat in Hfree by lia.
    split; [lia|]. split; [exact Hfree|].
    intros i Hi. apply Hbefore. lia.
  - intros (Hj & Hfree & Hbefore). now apply waitForMemory_found.
Qed.

(** ** BalanceTransform *)

Section BalanceMore.
Context {Field : Type} `{IColumn Field}.
Variable header : Block Field.
Variables min_rows min_bytes : Z.
Variable memory_tracker : MemoryTracker.
Variable budget : nat.

Abbreviation bstate := (@BalanceTransform.state Field).
Abbreviation badd := (BalanceTransform.add header min_rows min_bytes memory_tracker budget).
Abbreviation brun := (balanceRun header min_rows min_bytes memory_tracker budget).
Abbreviation pendingEnough := (BalanceTransform.pendingEnough min_rows min_bytes).
Abbreviation pendingBytes := (@BalanceTransform.pendingBytes Field _).
Abbreviation pending := (@BalanceTransform.chunks_to_merge_vec Field).
Abbreviation gate := (checkAndWaitMemoryAvailability memory_tracker budget).
Abbreviation belowThreshold := (belowThreshold min_rows min_bytes).

(** [add] on a block that is not the sentinel, in the words of [chunkOf]:
    what the call returns and leaves pending when it returns. *)
Lemma balance_add_returns (input : Block Field) (s : bstate) chunk s' :
  input <> [] ->
  badd input s = Ok (chunk, s') ->
  let kept := if pendingEnough (pending s) then [] else pending s in
  BalanceTransform.data_types s' = getDataTypes input
  /\ ((pendingEnough (kept ++ [chunkOf input]) = true
       /\ chunk = mkChunk (cloneEmptyColumns header) 0
                    (Some (ChunksToSquash (kept ++ [chunkOf input])
                             (getDataTypes input)))
       /\ pending s' = [])
      \/ (pendingEnough (kept ++ [chunkOf input]) = false
          /\ chunk = chunkOf input
          /\ pending s' = kept ++ [chunkOf input])).
Proof.
  intros Hne E kept. destruct input as [|c block]; [congruence|].
  rewrite balance_add_cons in E.
  destruct (newChunk (getColumns (c :: block)) (rows (c :: block)) None)
    as [made| |] eqn:En; try discriminate.
  destruct (newChunk_block _ _ _ En) as [-> _].
  fold (chunkOf (c :: block)) in E. cbn zeta in E.
  destruct (gate _ _) as [k1|]; [|discriminate].
  fold kept in E.
  destruct (gate _ _) as [k2|]; [|discriminate].
  destruct (pendingEnough (kept ++ [chunkOf (c :: block)])) eqn:Ee;
    injection E as <- <-; cbn [BalanceTransform.data_types
      BalanceTransform.chunks_to_merge_vec]; auto.
Qed.

Lemma belowThreshold_kept (s : bstate) :
  belowThreshold s ->
  (if pendingEnough (pending s) then [] else pending s) = pending s.
Proof.
  intros [-> | ->]; [destruct (pendingEnough []); reflexivity | reflexivity].
Qed.

(** X6. A chunk with a [ChunksToSquash] info that [add] returns for a block
    that is not the sentinel carries a list that is enough, made of what was
    pending followed by the chunk of that block, with the data types of that
    block; what was pending was not enough without it. *)
Theorem balance_marker_is_minimal (input : Block Field) (s : bstate) chunk s'
    chunks types :
  belowThreshold s ->
  input <> [] ->
  badd input s = Ok (chunk, s') ->
  getChunkInfo chunk = Some (ChunksToSquash chunks types) ->
  chunks = pending s ++ [chunkOf input]
  /\ types = getDataTypes input
  /\ pendingEnough chunks = true
  /\ (pending s = [] \/ pendingEnough (pending s) = false).
Proof.
  intros Hs Hne E Hinfo.
  pose proof (balance_add_returns input s chunk s' Hne E) as Hr. cbn zeta in Hr.
  rewrite (belowThreshold_kept s Hs) in Hr.
  destruct Hr as [_ [(He & -> & _)|(_ & -> & _)]]; [|discriminate].
  cbn in Hinfo. injection Hinfo as <- <-. auto.
Qed.

(** X7. After a call that returns, [isDataLeft()] is true exactly when the
    block was not the sentinel and the chunk returned carries no info. *)
Theorem balance_isDataLeft_after (input : Block Field) (s : bstate) chunk s' :
  badd input s = Ok (chunk, s') ->
  BalanceTransform.isDataLeft s' = Block_bool input && negb (hasChunkInfo chunk).
Proof.
  intros E. destruct input as [|c block].
  - rewrite balance_add_nil, balance_convertToChunk_eq in E.
    unfold BalanceTransform.isDataLeft.
    destruct (pending s) eqn:Ep; injection E as <- <-; [now rewrite Ep | reflexivity].
  - pose proof (balance_add_returns (c :: block) s chunk s' ltac:(discriminate) E)
      as Hr. cbn zeta in Hr.
    unfold BalanceTransform.isDataLeft.
    destruct Hr as [_ [(_ & -> & ->)|(_ & -> & ->)]]; [reflexivity|].
    rewrite Block_bool_cons. cbn [hasChunkInfo chunkOf getChunkInfo negb andb].
    destruct (if pendingEnough (pending s) then [] else pending s); reflexivity.
Qed.

(** X8. When [add] returns a chunk without info for a block that is not the
    sentinel, that chunk holds the columns and rows of the block, and the
    same chunk is now the last one pending: it is returned and kept. *)
Theorem balance_plain_chunk_stays_pending (input : Block Field) (s : bstate)
    chunk s' :
  input <> [] ->
  badd input s = Ok (chunk, s') ->
  getChunkInfo chunk = None ->
  chunkColumns chunk = getColumns input
  /\ getNumRows chunk = rows input
  /\ exists kept, pending s' = kept ++ [chunk].
Proof.
  intros Hne E Hinfo.
  pose proof (balance_add_returns input s chunk s' Hne E) as Hr. cbn zeta in Hr.
  destruct Hr as [_ [(_ & -> & _)|(_ & -> & ->)]]; [discriminate|].
  repeat split. eexists. reflexivity.
Qed.

Lemma balance_run_cons input inputs (s : bstate) :
  brun (input :: inputs) s =
  match badd input s with
  | Ok (chunk, s') =>
      match brun inputs s' with
      | Ok (rest, final) => Ok (chunk :: rest, final)
      | Throw e => Throw e
      | Spin => Spin
      end
  | Throw e => Throw e
  | Spin => Spin
  end.
Proof.
  cbn [balanceRun]. unfold_monad.
  destruct (badd input s) as [[chunk s']| |]; reflexivity.
Qed.

(** One call neither loses nor repeats a chunk. *)
Lemma balance_add_keeps_chunks (input : Block Field) (s : bstate) chunk s' :
  belowThreshold s ->
  badd input s = Ok (chunk, s') ->
  belowThreshold s'
  /\ markerChunks chunk ++ pending s'
     = pending s ++ map chunkOf (withoutSentinels [input]).
Proof.
  intros Hs E. destruct input as [|c block].
  - rewrite balance_add_nil, balance_convertToChunk_eq in E.
    destruct (pending s) eqn:Ep; injection E as <- <-.
    + split; [left; exact Ep|]. now rewrite Ep.
    + split; [left; reflexivity|]. cbn. now rewrite !app_nil_r.
  - pose proof (balance_add_returns (c :: block) s chunk s' ltac:(discriminate) E)
      as Hr. cbn zeta in Hr.
    rewrite (belowThreshold_kept s Hs) in Hr.
    unfold withoutSentinels. cbn [filter]. rewrite Block_bool_cons. cbn [map].
    destruct Hr as [_ [(_ & -> & Hp)|(He & -> & Hp)]].
    + split; [left; exact Hp|]. rewrite Hp. cbn. now rewrite app_nil_r.
    + split; [right; now rewrite Hp | now rewrite Hp].
Qed.

(** X9. The balancer neither loses, repeats nor reorders a block: on any
    stream that goes through, the chunks handed over in the markers, in the
    order of the calls, followed by the chunks still pending, are the chunks
    pending before followed by the chunks of the blocks of the stream that
    are not the sentinel. *)
Theorem balance_run_keeps_chunks (inputs : list (Block Field)) :
  forall (s : bstate) returned s',
  belowThreshold s ->
  brun inputs s = Ok (returned, s') ->
  flat_map markerChunks returned ++ pending s'
  = pending s ++ map chunkOf (withoutSentinels inputs).
Proof.
  induction inputs as [|input inputs IH]; intros s returned s' Hs E.
  - injection E as <- <-. cbn. now rewrite app_nil_r.
  - rewrite balance_run_cons in E.
    destruct (badd input s) as [[chunk s1]| |] eqn:Ea; try discriminate.
    destruct (brun inputs s1) as [[rest sf]| |] eqn:Er; try discriminate.
    injection E as <- <-.
    destruct (balance_add_keeps_chunks input s chunk s1 Hs Ea) as [Hs1 Hd].
    cbn [flat_map]. rewrite <- app_assoc, (IH _ _ _ Hs1 Er), app_assoc, Hd.
    rewrite <- app_assoc. f_equal.
    unfold withoutSentinels. cbn [filter].
    destruct (Block_bool input); cbn [map app]; reflexivity.
Qed.

Lemma pendingBytes_range (chunks : list (Chunk Field)) :
  0 <= pendingBytes chunks < 2 ^ 64.
Proof.
  unfold BalanceTransform.pendingBytes.
  assert (Hgen : forall rows0 bytes0, 0 <= bytes0 < 2 ^ 64 ->
            0 <= snd (BalanceTransform.sizesOfChunks chunks rows0 bytes0) < 2 ^ 64).
  { induction chunks as [|c chunks IH]; intros rows0 bytes0 Hb; [exact Hb|].
    cbn [BalanceTransform.sizesOfChunks]. apply IH.
    unfold size_t_add, size_t_modulus. apply Z.mod_pos_bound. lia. }
  apply Hgen. lia.
Qed.

(** X10. Under a hard limit, whatever its value, with at least one byte in
    use at every read, [add] never comes back with a block that is not the
    sentinel and has columns of one size: it waits in the memory check made
    for what is already pending. *)
Theorem balance_add_never_returns_under_limit (input : Block Field) (s : bstate) :
  getHardLimit memory_tracker <> 0 ->
  (forall n, 1 <= get memory_tracker n < 2 ^ 63) ->
  pendingBytes (pending s) < 2 ^ 63 ->
  input <> [] ->
  consistentRows input = true ->
  badd input s = Spin.
Proof.
  intros Hlimit Hget Hbytes Hne Hc.
  destruct input as [|c block]; [congruence|].
  rewrite balance_add_cons. unfold newChunk.
  rewrite checkNumRowsIsConsistent_block, Hc. cbn zeta.
  rewrite memory_gate_spins_while_in_use; auto.
  pose proof (pendingBytes_range (pending s)). lia.
Qed.

End BalanceMore.

(** X11. With both thresholds zero and no hard limit the balancer hands
    every block that is not the sentinel and has columns of one size over at
    once, alone in its marker, and keeps nothing; what was pending before
    the call is dropped. *)
Theorem balance_pass_through {Field : Type} `{IColumn Field}
    (header input : Block Field) (memory_tracker : MemoryTracker) (budget : nat)
    (s : @BalanceTransform.state Field) :
  getHardLimit memory_tracker = 0 ->
  input <> [] ->
  consistentRows input = true ->
  exists s',
    BalanceTransform.add header 0 0 memory_tracker budget input s
    = Ok (mkChunk (cloneEmptyColumns header) 0
            (Some (ChunksToSquash [chunkOf input] (getDataTypes input))), s')
    /\ BalanceTransform.chunks_to_merge_vec s' = [].
Proof.
  intros Hlimit Hne Hc.
  destruct input as [|c block]; [congruence|].
  rewrite balance_add_cons. unfold newChunk.
  rewrite checkNumRowsIsConsistent_block, Hc. cbn zeta.
  rewrite !(memory_gate_open memory_tracker budget Hlimit).
  cbn [app]. eexists. split; reflexivity.
Qed.

(** ** NewSquashingTransform *)

Section NewSquashingMore.
Context {Field : Type}.

Abbreviation nadd := (@NewSquashingTransform.add Field).
Abbreviation nappend := (@NewSquashingTransform.append Field).
Abbreviation appendAll := (@NewSquashingTransform.appendAll Field).

Lemma skipn_nth_error {A} (l : list A) i x :
  nth_error l i = Some x -> skipn i l = x :: skipn (S i) l.
Proof.
  revert i; induction l as [|a l IH]; intros [|i] E; try discriminate.
  - now injection E as ->.
  - cbn in E. cbn [skipn]. now apply IH.
Qed.

(** The columns made by the first loop of [append] take their types from
    [data_types] and their names from the type and the position. *)
Lemma insertChunkColumns_structure (cols : Columns Field) types :
  forall i (accumulated : Block Field),
  (i + length cols <= length types)%nat ->
  exists inserted,
    NewSquashingTransform.insertChunkColumns cols types i accumulated
    = Ok (accumulated ++ inserted)
    /\ structure inserted
       = numberedColumns (firstn (length cols) (skipn i types)) i.
Proof.
  induction cols as [|c cols IH]; intros i accumulated Hlen.
  - exists []. cbn. now rewrite app_nil_r.
  - cbn [NewSquashingTransform.insertChunkColumns].
    destruct (nth_error types i) as [t|] eqn:Et.
    + destruct (IH (S i) (accumulated
                          ++ [mkColumnWithTypeAndName c t (t ++ toString i)%string]))
        as (rest & E & Hs); [cbn in Hlen; lia|].
      exists (mkColumnWithTypeAndName c t (t ++ toString i)%string :: rest).
      rewrite E, <- app_assoc. split; [reflexivity|].
      rewrite (skipn_nth_error _ _ _ Et).
      cbn [length firstn numberedColumns structure map type name].
      fold (structure rest). now rewrite Hs.
    + apply nth_error_None in Et. cbn in Hlen. lia.
Qed.

(** Once the buffer has columns, [append] leaves their types and names alone. *)
Lemma new_squashing_appendAll_structure (chunks : list (Chunk Field)) types :
  forall accumulated appended : Block Field,
  accumulated <> [] ->
  appendAll chunks types accumulated = Ok (tt, appended) ->
  structure appended = structure accumulated.
Proof.
  induction chunks as [|chunk chunks IH]; intros accumulated appended Hne E.
  - now injection E as <-.
  - cbn [NewSquashingTransform.appendAll] in E. unfold bind in E.
    rewrite new_squashing_append_eq in E.
    destruct (chunkColumns chunk) as [|c cols]; [now apply IH|].
    destruct accumulated as [|a accumulated]; [congruence|].
    destruct (insertRangeFromColumns (a :: accumulated) (c :: cols))
      as [r| |] eqn:Er; try discriminate.
    pose proof (insertRangeFromColumns_structure _ _ _ Er) as Hs.
    rewrite <- Hs. apply IH; [|exact E].
    intros ->. cbn in Hs. discriminate.
Qed.

(** X12. The block that [add] makes of a marker, starting from an empty
    buffer, does not have the names of the blocks that went into the
    balancer: its columns are as many as the first chunk has, their types
    are the first data types of the marker and the name of column [i] is
    the name of its type followed by [i]. *)
Theorem new_squashing_names_columns_by_type (chunk first : Chunk Field) rest types
    (returned buffer : Block Field) :
  getChunkInfo chunk = Some (ChunksToSquash (first :: rest) types) ->
  chunkColumns first <> [] ->
  (length (chunkColumns first) <= length types)%nat ->
  nadd chunk [] = Ok (returned, buffer) ->
  structure returned
  = numberedColumns (firstn (length (chunkColumns first)) types) O
  /\ buffer = [].
Proof.
  intros Hinfo Hfirst Hlen E.
  rewrite new_squashing_add_eq, Hinfo in E.
  cbn [NewSquashingTransform.appendAll] in E. unfold bind in E.
  rewrite new_squashing_append_eq in E.
  destruct (chunkColumns first) as [|c cols] eqn:Ec; [congruence|].
  destruct (insertChunkColumns_structure (c :: cols) types O []) as (r & Er & Hs);
    [cbn in *; lia|].
  rewrite Er in E. cbn [app] in E.
  destruct (appendAll rest types r) as [[[] appended]| |] eqn:Ea; try discriminate.
  injection E as <- <-. split; [|reflexivity].
  rewrite (new_squashing_appendAll_structure rest types r appended); [exact Hs| |exact Ea].
  intros ->. destruct types as [|t types]; [cbn in Hlen; lia|].
  cbn in Hs. discriminate.
Qed.

(** X13. A marker whose chunks have no columns, and so a marker with an
    empty list, is a flush and nothing else: [add] returns the buffer as it
    is and leaves it empty. *)
Theorem new_squashing_empty_marker_flushes (chunk : Chunk Field) chunks types
    (accumulated : Block Field) :
  getChunkInfo chunk = Some (ChunksToSquash chunks types) ->
  Forall (fun c => chunkColumns c = []) chunks ->
  nadd chunk accumulated = Ok (accumulated, []).
Proof.
  intros Hinfo Hall. rewrite new_squashing_add_eq, Hinfo. clear Hinfo.
  assert (E : appendAll chunks types accumulated = Ok (tt, accumulated)).
  { induction Hall as [|c chunks Hc _ IH]; [reflexivity|].
    cbn [NewSquashingTransform.appendAll]. unfold bind.
    rewrite new_squashing_append_eq, Hc. exact IH. }
  now rewrite E.
Qed.

(** Whenever [add] returns, the buffer is empty. *)
Lemma new_squashing_add_empties_buffer (chunk : Chunk Field)
    (accumulated returned buffer : Block Field) :
  nadd chunk accumulated = Ok (returned, buffer) -> buffer = [].
Proof.
  rewrite new_squashing_add_eq.
  destruct (getChunkInfo chunk) as [[chunks types|blocks]|]; try discriminate.
  - destruct (appendAll chunks types accumulated) as [[[] appended]| |];
      try discriminate.
    now intros E; injection E as _ <-.
  - now intros E; injection E as _ <-.
Qed.

End NewSquashingMore.

(** X14. Handing every chunk of the balancer to the squasher, and not only
    the markers, changes nothing but for empty blocks: a chunk without info
    makes the squasher return its empty buffer, and the rows of that chunk
    do not come out twice. Whenever the markers alone go through, all the
    chunks go through, with the same balancer at the end and the same
    blocks once the empty ones are left out. *)
Theorem pipeline_all_chunks_same_blocks {Field : Type} `{IColumn Field}
    (header : Block Field) (min_rows min_bytes : Z)
    (memory_tracker : MemoryTracker) (budget : nat) (inputs : list (Block Field)) :
  forall (s : @BalanceTransform.state Field) returned s' buffer,
  BalanceTransform.pipeline header min_rows min_bytes memory_tracker budget
    inputs s [] = Ok (returned, (s', buffer)) ->
  buffer = []
  /\ exists returned',
       pipelineAll header min_rows min_bytes memory_tracker budget inputs s []
       = Ok (returned', (s', []))
       /\ filter Block_bool returned' = filter Block_bool returned
       /\ length returned' = length inputs.
Proof.
  induction inputs as [|input inputs IH]; intros s returned s' buffer E.
  - injection E as <- <- <-. split; [reflexivity|]. exists []. auto.
  - rewrite pipeline_cons in E. cbn [pipelineAll].
    destruct (BalanceTransform.add header min_rows min_bytes memory_tracker budget
                input s) as [[chunk s1]| |]; try discriminate.
    unfold hasChunkInfo in E.
    destruct (getChunkInfo chunk) as [info|] eqn:Einfo.
    + destruct (NewSquashingTransform.add chunk []) as [[block q]| |] eqn:Ea;
        try discriminate.
      pose proof (new_squashing_add_empties_buffer _ _ _ _ Ea) as ->.
      destruct (BalanceTransform.pipeline header min_rows min_bytes memory_tracker
                  budget inputs s1 []) as [[rest [sf qf]]| |] eqn:Er;
        try discriminate.
      injection E as <- <- <-.
      destruct (IH _ _ _ _ Er) as (-> & rest' & -> & Hf & Hl).
      split; [reflexivity|]. exists (block :: rest').
      split; [reflexivity|]. cbn [filter length]. now rewrite Hf, Hl.
    + rewrite new_squashing_add_eq, Einfo.
      destruct (IH _ _ _ _ E) as (-> & rest' & -> & Hf & Hl).
      split; [reflexivity|]. exists ([] :: rest').
      split; [reflexivity|]. cbn [filter length Block_bool]. now rewrite Hf, Hl.
Qed.

(** ** NewSquashingBlockTransform *)

Section NewSquashingBlockMore.
Context {Field : Type}.

Abbreviation nbadd := (@NewSquashingBlockTransform.add Field).
Abbreviation nbappend := (@NewSquashingBlockTransform.append Field).
Abbreviation nbappendAll := (@NewSquashingBlockTransform.appendAll Field).

(** The first loop of [append] copies the columns of the input, with their
    types and names, behind what is there. *)
Lemma insertBlockColumns_copies (input : Block Field) :
  forall remaining i (accumulated : Block Field),
  (i + remaining = length input)%nat ->
  NewSquashingBlockTransform.insertBlockColumns remaining input i accumulated
  = Ok (accumulated ++ skipn i input).
Proof.
  induction remaining as [|remaining IH]; intros i accumulated Hlen.
  - cbn. rewrite skipn_all2 by lia. now rewrite app_nil_r.
  - cbn [NewSquashingBlockTransform.insertBlockColumns].
    destruct (nth_error input i) as [x|] eqn:Ex;
      [|apply nth_error_None in Ex; lia].
    unfold getColumns, getDataTypes, getNames.
    rewrite !nth_error_map, Ex. cbn [option_map].
    rewrite IH by lia. rewrite <- app_assoc. cbn [app].
    rewrite (skipn_nth_error _ _ _ Ex). now destruct x.
Qed.

(** [append] without the monad. *)
Lemma new_squashing_block_append_eq (input accumulated : Block Field) :
  nbappend input accumulated =
  match input with
  | [] => Ok (tt, accumulated)
  | _ :: _ =>
      match accumulated with
      | [] => Ok (tt, input)
      | _ :: _ =>
          match insertRangeFromColumns accumulated (getColumns input) with
          | Ok appended => Ok (tt, appended)
          | Throw e => Throw e
          | Spin => Spin
          end
      end
  end.
Proof.
  unfold NewSquashingBlockTransform.append.
  destruct input as [|c input]; [reflexivity|].
  replace (columns (c :: input) =? 0) with false by reflexivity.
  unfold_monad.
  destruct accumulated as [|a accumulated].
  - cbn [Block_bool columns length Z.of_nat Z.eqb negb].
    rewrite insertBlockColumns_copies by reflexivity. reflexivity.
  - rewrite Block_bool_cons. cbn [negb].
    destruct (insertRangeFromColumns _ _); reflexivity.
Qed.

(** [add] without the monad. *)
Lemma new_squashing_block_add_eq (chunk : Chunk Field) (accumulated : Block Field) :
  nbadd chunk accumulated =
  match getChunkInfo chunk with
  | None => Ok (accumulated, [])
  | Some (BlocksToSquash blocks) =>
      match nbappendAll blocks accumulated with
      | Ok (_, appended) => Ok (appended, [])
      | Throw e => Throw e
      | Spin => Spin
      end
  | Some (ChunksToSquash _ _) => Throw NULL_DEREFERENCE
  end.
Proof.
  unfold NewSquashingBlockTransform.add, NewSquashingBlockTransform.addImpl,
    NewSquashingBlockTransform.getInfoFromChunkBlock,
    NewSquashingBlockTransform.swapAndReturn, hasChunkInfo.
  destruct (getChunkInfo chunk) as [[chunks types|blocks]|]; cbn [negb];
    reflexivity.
Qed.

(** Blocks with as many columns as the buffer are appended to it one after
    the other; the types and names of the buffer stay. *)
Lemma new_squashing_block_appendAll (blocks : list (Block Field)) :
  forall accumulated : Block Field,
  accumulated <> [] ->
  Forall (fun block => length block = length accumulated) blocks ->
  exists appended,
    nbappendAll blocks accumulated = Ok (tt, appended)
    /\ structure appended = structure accumulated
    /\ forall i, columnData i appended
                 = columnData i accumulated ++ concatColumn i blocks.
Proof.
  induction blocks as [|block blocks IH]; intros accumulated Hne Hall.
  - exists accumulated. split; [reflexivity|]. split; [reflexivity|].
    intros i. cbn. now rewrite app_nil_r.
  - inversion Hall as [|? ? Hb Hrest]; subst.
    cbn [NewSquashingBlockTransform.appendAll]. unfold bind.
    rewrite new_squashing_block_append_eq.
    destruct accumulated as [|a accumulated]; [congruence|].
    destruct block as [|c block]; [discriminate|].
    destruct (insertRangeFromColumns_total (a :: accumulated) (getColumns (c :: block)))
      as (r & Er & Hs & _).
    { unfold getColumns. rewrite length_map. lia. }
    rewrite Er.
    pose proof (insertRangeFromColumns_data _ _ _ Er) as Hd.
    destruct (IH r) as (appended & -> & Hs' & Hd').
    + intros ->. cbn in Hs. discriminate.
    + apply structure_length in Hs. rewrite Hs. exact Hrest.
    + exists appended. split; [reflexivity|]. split; [congruence|].
      intros i. rewrite Hd', Hd.
      * cbn [concatColumn flat_map]. now rewrite <- app_assoc.
      * unfold getColumns. rewrite length_map. exact Hb.
Qed.

(** X15. The block that [add] makes of a marker of blocks with equally many
    columns, starting from an empty buffer, has the types and names of the
    first block, whatever those of the later blocks, and each of its columns
    is that column of the blocks, one block after the other; the buffer is
    empty afterwards. *)
Theorem new_squashing_block_keeps_first_layout (chunk : Chunk Field)
    (first : Block Field) rest :
  getChunkInfo chunk = Some (BlocksToSquash (first :: rest)) ->
  first <> [] ->
  Forall (fun block => length block = length first) rest ->
  exists returned,
    nbadd chunk [] = Ok (returned, [])
    /\ structure returned = structure first
    /\ forall i, columnData i returned = concatColumn i (first :: rest).
Proof.
  intros Hinfo Hne Hall.
  rewrite new_squashing_block_add_eq, Hinfo.
  cbn [NewSquashingBlockTransform.appendAll]. unfold bind.
  rewrite new_squashing_block_append_eq.
  destruct first as [|c first]; [congruence|].
  destruct (new_squashing_block_appendAll rest (c :: first) Hne Hall)
    as (appended & -> & Hs & Hd).
  exists appended. split; [reflexivity|]. split; [exact Hs|].
  intros i. now rewrite Hd.
Qed.

End NewSquashingBlockMore.

(** ** BalanceBlockTransform *)

Section BalanceBlockMore.
Context {Field : Type} `{IColumn Field}.
Variable header : Block Field.
Variables min_rows min_bytes : Z.
Variable memory_tracker : MemoryTracker.
Variable budget : nat.

Abbreviation bbstate := (@BalanceBlockTransform.state Field).
Abbreviation bbadd :=
  (BalanceBlockTransform.add header min_rows min_bytes memory_tracker budget).
Abbreviation badd := (BalanceTransform.add header min_rows min_bytes memory_tracker budget).
Abbreviation pendingEnough := (BalanceTransform.pendingEnough min_rows min_bytes).
Abbreviation pendingBytes := (@BalanceTransform.pendingBytes Field _).
Abbreviation gate := (checkAndWaitMemoryAvailability memory_tracker budget).
Abbreviation blocks := (@BalanceBlockTransform.blocks_to_merge_vec Field).

(** A block weighs what its chunk weighs. *)
Lemma Block_bytes_chunkOf (block : Block Field) :
  BalanceBlockTransform.Block_bytes block = BalanceTransform.Chunk_bytes (chunkOf block).
Proof.
  unfold BalanceBlockTransform.Block_bytes, BalanceTransform.Chunk_bytes, chunkOf.
  cbn [chunkColumns]. unfold getColumns. generalize 0.
  induction block as [|c block IH]; intros z; [reflexivity|].
  cbn [map fold_left]. apply IH.
Qed.

Lemma sizesOfBlocks_chunkOf (bs : list (Block Field)) :
  forall rows0 bytes0,
  BalanceBlockTransform.sizesOfBlocks bs rows0 bytes0
  = BalanceTransform.sizesOfChunks (map chunkOf bs) rows0 bytes0.
Proof.
  induction bs as [|b bs IH]; intros rows0 bytes0; [reflexivity|].
  cbn [BalanceBlockTransform.sizesOfBlocks BalanceTransform.sizesOfChunks map].
  rewrite IH, Block_bytes_chunkOf. reflexivity.
Qed.

(** [isEnoughSize(blocks_to_merge_vec)] without the monad, in the words of
    the chunks of the blocks. *)
Lemma balance_block_isEnoughSizeBlocks_eq (s : bbstate) :
  BalanceBlockTransform.isEnoughSizeBlocks min_rows min_bytes memory_tracker budget s =
  match gate (pendingBytes (map chunkOf (blocks s))) (BalanceBlockTransform.reads s) with
  | Some k =>
      Ok (pendingEnough (map chunkOf (blocks s)),
          BalanceBlockTransform.mkState (blocks s) k)
  | None => Spin
  end.
Proof.
  unfold BalanceBlockTransform.isEnoughSizeBlocks, BalanceTransform.pendingEnough,
    BalanceTransform.pendingBytes, BalanceTransform.pendingRows,
    BalanceBlockTransform.memoryGate.
  unfold_monad. rewrite sizesOfBlocks_chunkOf.
  destruct (BalanceTransform.sizesOfChunks (map chunkOf (blocks s)) 0 0)
    as [rows0 bytes0].
  cbn [fst snd].
  destruct (gate bytes0 (BalanceBlockTransform.reads s)); reflexivity.
Qed.

(** [convertToChunk(blocks_to_merge_vec)] without the monad. *)
Lemma balance_block_convertToChunk_eq (s : bbstate) :
  BalanceBlockTransform.convertToChunk header s =
  match blocks s with
  | [] => Ok (emptyChunk, s)
  | _ :: _ =>
      Ok (mkChunk (cloneEmptyColumns header) 0 (Some (BlocksToSquash (blocks s))),
          BalanceBlockTransform.mkState [] (BalanceBlockTransform.reads s))
  end.
Proof.
  unfold BalanceBlockTransform.convertToChunk, BalanceBlockTransform.setBlocks.
  unfold_monad.
  destruct (blocks s) as [|b bs] eqn:Eb; [reflexivity|].
  rewrite newChunk_empty_columns. reflexivity.
Qed.

Lemma balance_block_add_nil (s : bbstate) :
  bbadd [] s = BalanceBlockTransform.convertToChunk header s.
Proof. reflexivity. Qed.

(** [add] on a block that is not the sentinel, without the monad. *)
Lemma balance_block_add_cons (input : Block Field) (s : bbstate) :
  input <> [] ->
  bbadd input s =
  match newChunk (getColumns input) (rows input) None with
  | Ok chunk =>
      match gate (pendingBytes (map chunkOf (blocks s)))
              (BalanceBlockTransform.reads s) with
      | Some k1 =>
          let kept := if pendingEnough (map chunkOf (blocks s)) then [] else blocks s in
          match gate (pendingBytes (map chunkOf (kept ++ [input]))) k1 with
          | Some k2 =>
              if pendingEnough (map chunkOf (kept ++ [input]))
              then Ok (mkChunk (cloneEmptyColumns header) 0
                         (Some (BlocksToSquash (kept ++ [input]))),
                       BalanceBlockTransform.mkState [] k2)
              else Ok (chunk, BalanceBlockTransform.mkState (kept ++ [input]) k2)
          | None => Spin
          end
      | None => Spin
      end
  | Throw e => Throw e
  | Spin => Spin
  end.
Proof.
  intros Hne. destruct input as [|c block]; [congruence|].
  set (input := c :: block).
  unfold BalanceBlockTransform.add, BalanceBlockTransform.addImpl.
  unfold bind at 1. unfold lift at 1.
  destruct (newChunk (getColumns input) (rows input) None)
    as [chunk| |] eqn:En; try reflexivity.
  destruct (newChunk_block _ _ _ En) as [_ Hb].
  rewrite Hb. cbn [negb].
  unfold bind at 1. rewrite balance_block_isEnoughSizeBlocks_eq.
  destruct (gate (pendingBytes (map chunkOf (blocks s)))
              (BalanceBlockTransform.reads s)) as [k1|]; [|reflexivity].
  cbn zeta.
  destruct (pendingEnough (map chunkOf (blocks s)));
    unfold BalanceBlockTransform.setBlocks; unfold_monad;
    cbn [BalanceBlockTransform.blocks_to_merge_vec BalanceBlockTransform.reads];
    rewrite balance_block_isEnoughSizeBlocks_eq;
    cbn [BalanceBlockTransform.blocks_to_merge_vec BalanceBlockTransform.reads].
  - unfold Block in *.
    destruct (gate _ k1) as [k2|]; [|reflexivity].
    destruct (pendingEnough _); [|reflexivity].
    rewrite balance_block_convertToChunk_eq. reflexivity.
  - unfold Block in *.
    destruct (gate _ k1) as [k2|]; [|reflexivity].
    destruct (pendingEnough _); [|reflexivity].
    rewrite balance_block_convertToChunk_eq.
    cbn [BalanceBlockTransform.blocks_to_merge_vec BalanceBlockTransform.reads].
    destruct (blocks s); reflexivity.
Qed.

(** X16. [BalanceBlockTransform] takes the decisions of [BalanceTransform]:
    from states that hold the same batches and are at the same read of the
    memory tracker, [add] on the same block throws the same exception, or
    waits in both, or returns in both, a marker in both or in neither, with
    the same batches in the marker, the same columns and rows in the chunk,
    and states that again hold the same batches. *)
Theorem balance_block_follows_balance (input : Block Field) (sb : bbstate)
    (sc : @BalanceTransform.state Field) :
  map chunkOf (blocks sb) = BalanceTransform.chunks_to_merge_vec sc ->
  BalanceBlockTransform.reads sb = BalanceTransform.reads sc ->
  match bbadd input sb, badd input sc with
  | Ok (chunk_b, sb'), Ok (chunk_c, sc') =>
      map chunkOf (blocks sb') = BalanceTransform.chunks_to_merge_vec sc'
      /\ BalanceBlockTransform.reads sb' = BalanceTransform.reads sc'
      /\ hasChunkInfo chunk_b = hasChunkInfo chunk_c
      /\ map chunkOf (markerBlocks chunk_b) = markerChunks chunk_c
      /\ chunkColumns chunk_b = chunkColumns chunk_c
      /\ getNumRows chunk_b = getNumRows chunk_c
  | Throw e_b, Throw e_c => e_b = e_c
  | Spin, Spin => True
  | _, _ => False
  end.
Proof.
  intros Hblocks Hreads. destruct input as [|c block].
  - rewrite balance_block_add_nil, balance_block_convertToChunk_eq,
      balance_add_nil, balance_convertToChunk_eq, <- Hblocks.
    destruct (blocks sb) as [|b bs] eqn:Eb; cbn [map].
    + rewrite Eb. repeat split; auto.
    + repeat split; auto.
  - rewrite balance_block_add_cons by discriminate.
    rewrite balance_add_cons, <- Hblocks, <- Hreads.
    destruct (newChunk (getColumns (c :: block)) (rows (c :: block)) None)
      as [made| |] eqn:En; auto.
    destruct (newChunk_block _ _ _ En) as [-> _].
    cbn zeta.
    destruct (gate (pendingBytes (map chunkOf (blocks sb)))
                (BalanceBlockTransform.reads sb)) as [k1|]; [|exact I].
    destruct (pendingEnough (map chunkOf (blocks sb)));
      repeat match goal with
             | |- context [map chunkOf (?x ++ ?y)] => rewrite (map_app chunkOf x y)
             end;
      cbn [map app]; unfold chunkOf;
      (destruct (gate _ k1) as [k2|]; [|exact I]);
      destruct (BalanceTransform.pendingEnough _ _ _);
      cbn [BalanceBlockTransform.blocks_to_merge_vec BalanceBlockTransform.reads
           BalanceTransform.chunks_to_merge_vec BalanceTransform.reads
           markerBlocks markerChunks getChunkInfo hasChunkInfo chunkColumns
           getNumRows map];
      repeat match goal with
             | |- context [map ?f (?x ++ ?y)] => rewrite (map_app f x y)
             end;
      repeat split; reflexivity.
Qed.

End BalanceBlockMore.

(** With both thresholds zero every list is enough, the empty one too. *)
Lemma pendingEnough_zero {Field : Type} `{IColumn Field} (chunks : list (Chunk Field)) :
  BalanceTransform.pendingEnough 0 0 chunks = true.
Proof. reflexivity. Qed.

(** X17. With both thresholds zero and no hard limit the two block classes
    together give every block back as it is: [BalanceBlockTransform::add]
    hands a block that is not the sentinel and has columns of one size over
    alone in its marker and keeps nothing, and
    [NewSquashingBlockTransform::add] makes of that marker the block itself,
    with its columns, types and names. *)
Theorem block_pipeline_pass_through {Field : Type} `{IColumn Field}
    (header input : Block Field) (memory_tracker : MemoryTracker) (budget : nat)
    (s : @BalanceBlockTransform.state Field) :
  getHardLimit memory_tracker = 0 ->
  input <> [] ->
  consistentRows input = true ->
  exists chunk s',
    BalanceBlockTransform.add header 0 0 memory_tracker budget input s = Ok (chunk, s')
    /\ markerBlocks chunk = [input]
    /\ BalanceBlockTransform.isDataLeft s' = false
    /\ NewSquashingBlockTransform.add chunk [] = Ok (input, []).
Proof.
  intros Hlimit Hne Hc.
  rewrite balance_block_add_cons by exact Hne. unfold newChunk.
  rewrite checkNumRowsIsConsistent_block, Hc. cbn zeta.
  rewrite !(memory_gate_open memory_tracker budget Hlimit).
  rewrite !pendingEnough_zero. cbn [app].
  eexists _, _. split; [reflexivity|].
  split; [reflexivity|]. split; [reflexivity|].
  rewrite new_squashing_block_add_eq. cbn [getChunkInfo].
  cbn [NewSquashingBlockTransform.appendAll]. unfold bind.
  rewrite new_squashing_block_append_eq.
  destruct input; [congruence | reflexivity].
Qed.

(** ** The further properties on the samples *)

Lemma column_sizes_exception_iff_witness :
  sizesDiffer ragged_block_empty_last = true
  /\ SquashingTransform.isEnoughSizeBlock 4 0 ragged_block_empty_last
     = Throw SIZES_OF_COLUMNS_DOESNT_MATCH
  /\ sizesDiffer ragged_block_empty_first = false
  /\ exists enough,
       SquashingTransform.isEnoughSizeBlock 4 0 ragged_block_empty_first = Ok enough.
Proof.
  split; [reflexivity|]. split.
  - apply (proj1 (column_sizes_exception_iff 4 0 ragged_block_empty_last)).
    reflexivity.
  - split; [reflexivity|].
    apply (proj1 (proj2 (column_sizes_exception_iff 4 0 ragged_block_empty_first))).
    reflexivity.
Defined.

Lemma squashing_pass_through_witness :
  forallb (fun block => negb (sizesDiffer block))
    [small_block; ragged_block_empty_first; []; large_block] = true
  /\ SquashingTransform.run 0 0
       [small_block; ragged_block_empty_first; []; large_block]
       SquashingTransform.init
     = Ok ([small_block; ragged_block_empty_first; []; large_block], []).
Proof.
  split; [reflexivity|].
  apply (squashing_pass_through
           [small_block; ragged_block_empty_first; []; large_block]).
  reflexivity.
Defined.

Lemma squashing_large_block_not_merged_witness :
  large_block <> []
  /\ SquashingTransform.isEnoughSizeBlock 4 0 large_block = Ok true
  /\ SquashingTransform.add 4 0 large_block small_block = Ok (small_block, large_block)
  /\ SquashingTransform.add 4 0 small_block large_block = Ok (large_block, small_block)
  /\ ((small_block = [] /\ small_block = large_block /\ large_block = [])
      \/ (small_block <> [] /\ small_block = small_block
          /\ large_block = large_block /\ large_block = large_block)).
Proof.
  split; [discriminate|]. split; [reflexivity|].
  split; [reflexivity|]. split; [reflexivity|].
  apply (squashing_large_block_not_merged 4 0 large_block small_block small_block
           small_block large_block large_block small_block);
    [discriminate | reflexivity | reflexivity | reflexivity].
Defined.

Lemma squashing_outputs_keep_layout_witness :
  batchOf sample_header (@nil (ColumnWithTypeAndName Z)) = true
  /\ forallb (batchOf sample_header) [small_block; small_block; large_block] = true
  /\ SquashingTransform.run 4 0 [small_block; small_block; large_block]
       SquashingTransform.init
     = Ok ([[]; blockOf [[1; 2; 1; 2]; [11; 12; 11; 12]]; large_block], [])
  /\ forallb (batchOf sample_header)
       [[]; blockOf [[1; 2; 1; 2]; [11; 12; 11; 12]]; large_block] = true
  /\ batchOf sample_header (@nil (ColumnWithTypeAndName Z)) = true.
Proof.
  split; [reflexivity|]. split; [reflexivity|]. split; [reflexivity|].
  apply (squashing_outputs_keep_layout 4 0 sample_header
           [small_block; small_block; large_block] SquashingTransform.init);
    reflexivity.
Defined.

Lemma memory_gate_returns_at_first_free_read_witness :
  getHardLimit falling_tracker <> 0
  /\ checkAndWaitMemoryAvailability falling_tracker 5 2 0 = Some 3%nat.
Proof.
  split; [discriminate|].
  apply (proj2 (memory_gate_returns_at_first_free_read falling_tracker 5 2 0 2
                  ltac:(discriminate))).
  split; [lia|]. split; [reflexivity|].
  intros [|[|i]] Hi; [vm_compute; discriminate | vm_compute; discriminate | lia].
Defined.

Lemma balance_marker_is_minimal_witness :
  belowThreshold 4 0 one_pending
  /\ large_block <> []
  /\ exists chunk s' chunks types,
       BalanceTransform.add sample_header 4 0 unlimited_tracker 1 large_block one_pending
       = Ok (chunk, s')
       /\ getChunkInfo chunk = Some (ChunksToSquash chunks types)
       /\ chunks = [small_chunk] ++ [chunkOf large_block]
       /\ types = getDataTypes large_block
       /\ BalanceTransform.pendingEnough 4 0 chunks = true.
Proof.
  assert (Hs : belowThreshold 4 0 one_pending) by (right; reflexivity).
  split; [exact Hs|]. split; [discriminate|].
  eexists _, _, _, _. split; [lazy; reflexivity|]. split; [reflexivity|].
  destruct (balance_marker_is_minimal sample_header 4 0 unlimited_tracker 1
              large_block one_pending _ _ _ _ Hs ltac:(discriminate) eq_refl eq_refl)
    as (Hchunks & Htypes & Henough & _).
  split; [exact Hchunks|]. split; [exact Htypes | exact Henough].
Defined.

Lemma balance_isDataLeft_after_witness :
  exists chunk s',
    BalanceTransform.add sample_header 4 0 unlimited_tracker 1 small_block
      BalanceTransform.init = Ok (chunk, s')
    /\ BalanceTransform.isDataLeft s' = Block_bool small_block && negb (hasChunkInfo chunk)
    /\ BalanceTransform.isDataLeft s' = true.
Proof.
  eexists _, _. split; [lazy; reflexivity|]. split; [|reflexivity].
  apply (balance_isDataLeft_after sample_header 4 0 unlimited_tracker 1 small_block
           BalanceTransform.init). reflexivity.
Defined.

Lemma balance_plain_chunk_stays_pending_witness :
  small_block <> []
  /\ exists chunk s',
       BalanceTransform.add sample_header 4 0 unlimited_tracker 1 small_block
         BalanceTransform.init = Ok (chunk, s')
       /\ getChunkInfo chunk = None
       /\ chunkColumns chunk = getColumns small_block
       /\ getNumRows chunk = rows small_block
       /\ exists kept, BalanceTransform.chunks_to_merge_vec s' = kept ++ [chunk].
Proof.
  split; [discriminate|].
  eexists _, _. split; [lazy; reflexivity|]. split; [reflexivity|].
  apply (balance_plain_chunk_stays_pending sample_header 4 0 unlimited_tracker 1
           small_block BalanceTransform.init);
    [discriminate | reflexivity | reflexivity].
Defined.

Lemma balance_run_keeps_chunks_witness :
  belowThreshold 4 0 (@BalanceTransform.init Z)
  /\ exists returned s',
       balanceRun sample_header 4 0 unlimited_tracker 1
         [small_block; large_block; []; small_block] BalanceTransform.init
       = Ok (returned, s')
       /\ flat_map markerChunks returned ++ BalanceTransform.chunks_to_merge_vec s'
          = [] ++ map chunkOf
                    (withoutSentinels [small_block; large_block; []; small_block]).
Proof.
  assert (Hs : belowThreshold 4 0 (@BalanceTransform.init Z)) by (left; reflexivity).
  split; [exact Hs|].
  eexists _, _. split; [lazy; reflexivity|].
  apply (balance_run_keeps_chunks sample_header 4 0 unlimited_tracker 1
           [small_block; large_block; []; small_block] BalanceTransform.init _ _ Hs).
  reflexivity.
Defined.

Lemma balance_add_never_returns_under_limit_witness :
  getHardLimit limited_tracker <> 0
  /\ BalanceTransform.pendingBytes
       (BalanceTransform.chunks_to_merge_vec (@BalanceTransform.init Z)) < 2 ^ 63
  /\ small_block <> []
  /\ consistentRows small_block = true
  /\ BalanceTransform.add sample_header 4 0 limited_tracker 7 small_block
       BalanceTransform.init = Spin.
Proof.
  split; [discriminate|]. split; [reflexivity|]. split; [discriminate|].
  split; [reflexivity|].
  apply (balance_add_never_returns_under_limit sample_header 4 0 limited_tracker 7
           small_block BalanceTransform.init).
  - discriminate.
  - intros n. cbn [limited_tracker get]. lia.
  - reflexivity.
  - discriminate.
  - reflexivity.
Defined.

Lemma balance_pass_through_witness :
  getHardLimit unlimited_tracker = 0
  /\ small_block <> []
  /\ consistentRows small_block = true
  /\ exists s',
       BalanceTransform.add sample_header 0 0 unlimited_tracker 1 small_block one_pending
       = Ok (mkChunk (cloneEmptyColumns sample_header) 0
               (Some (ChunksToSquash [chunkOf small_block] (getDataTypes small_block))),
             s')
       /\ BalanceTransform.chunks_to_merge_vec s' = [].
Proof.
  split; [reflexivity|]. split; [discriminate|]. split; [reflexivity|].
  apply (balance_pass_through sample_header small_block unlimited_tracker 1 one_pending);
    [reflexivity | discriminate | reflexivity].
Defined.

Lemma new_squashing_names_columns_by_type_witness :
  getChunkInfo sample_marker
  = Some (ChunksToSquash (small_chunk :: [mkChunk (getColumns large_block) 5 None])
            (getDataTypes sample_header))
  /\ NewSquashingTransform.add sample_marker [] = Ok (merged_block, [])
  /\ structure merged_block
     = [("UInt64"%string, "UInt640"%string); ("UInt64"%string, "UInt641"%string)].
Proof.
  split; [reflexivity|]. split; [reflexivity|].
  apply (proj1 (new_squashing_names_columns_by_type sample_marker small_chunk
                  [mkChunk (getColumns large_block) 5 None]
                  (getDataTypes sample_header) merged_block []
                  eq_refl ltac:(discriminate) ltac:(cbn; lia) eq_refl)).
Defined.

Lemma new_squashing_empty_marker_flushes_witness :
  getChunkInfo hollow_marker = Some (ChunksToSquash [emptyChunk] [])
  /\ NewSquashingTransform.add hollow_marker small_block = Ok (small_block, []).
Proof.
  split; [reflexivity|].
  apply (new_squashing_empty_marker_flushes hollow_marker [emptyChunk] [] small_block);
    [reflexivity | repeat constructor].
Defined.

Lemma pipeline_all_chunks_same_blocks_witness :
  BalanceTransform.pipeline sample_header 4 0 unlimited_tracker 1
    [small_block; large_block; []] BalanceTransform.init []
  = Ok ([merged_block], (drained_balancer, []))
  /\ exists returned',
       pipelineAll sample_header 4 0 unlimited_tracker 1
         [small_block; large_block; []] BalanceTransform.init []
       = Ok (returned', (drained_balancer, []))
       /\ filter Block_bool returned' = filter Block_bool [merged_block]
       /\ length returned' = 3%nat.
Proof.
  assert (E : BalanceTransform.pipeline sample_header 4 0 unlimited_tracker 1
                [small_block; large_block; []] BalanceTransform.init []
              = Ok ([merged_block], (drained_balancer, []))) by reflexivity.
  split; [exact E|].
  apply (pipeline_all_chunks_same_blocks sample_header 4 0 unlimited_tracker 1
           [small_block; large_block; []] BalanceTransform.init
           [merged_block] drained_balancer [] E).
Defined.

Lemma new_squashing_block_keeps_first_layout_witness :
  getChunkInfo sample_block_marker = Some (BlocksToSquash (small_block :: [large_block]))
  /\ small_block <> []
  /\ exists returned,
       NewSquashingBlockTransform.add sample_block_marker [] = Ok (returned, [])
       /\ structure returned = structure small_block
       /\ forall i, columnData i returned = concatColumn i (small_block :: [large_block]).
Proof.
  split; [reflexivity|]. split; [discriminate|].
  apply (new_squashing_block_keeps_first_layout sample_block_marker small_block
           [large_block]); [reflexivity | discriminate | repeat constructor].
Defined.

Lemma balance_block_follows_balance_witness :
  match BalanceBlockTransform.add sample_header 4 0 unlimited_tracker 1 large_block
          (BalanceBlockTransform.mkState [small_block] O),
        BalanceTransform.add sample_header 4 0 unlimited_tracker 1 large_block one_pending
  with
  | Ok (chunk_b, sb'), Ok (chunk_c, sc') =>
      map chunkOf (BalanceBlockTransform.blocks_to_merge_vec sb')
      = BalanceTransform.chunks_to_merge_vec sc'
      /\ BalanceBlockTransform.reads sb' = BalanceTransform.reads sc'
      /\ hasChunkInfo chunk_b = hasChunkInfo chunk_c
      /\ map chunkOf (markerBlocks chunk_b) = markerChunks chunk_c
      /\ chunkColumns chunk_b = chunkColumns chunk_c
      /\ getNumRows chunk_b = getNumRows chunk_c
  | Throw e_b, Throw e_c => e_b = e_c
  | Spin, Spin => True
  | _, _ => False
  end
  /\ markerBlocks
       (mkChunk [[]; []] 0 (Some (BlocksToSquash [small_block; large_block])))
     = [small_block; large_block].
Proof.
  split; [|reflexivity].
  apply (balance_block_follows_balance sample_header 4 0 unlimited_tracker 1
           large_block (BalanceBlockTransform.mkState [small_block] O) one_pending);
    reflexivity.
Defined.

Lemma block_pipeline_pass_through_witness :
  getHardLimit unlimited_tracker = 0
  /\ small_block <> []
  /\ consistentRows small_block = true
  /\ exists chunk s',
       BalanceBlockTransform.add sample_header 0 0 unlimited_tracker 1 small_block
         BalanceBlockTransform.init = Ok (chunk, s')
       /\ markerBlocks chunk = [small_block]
       /\ BalanceBlockTransform.isDataLeft s' = false
       /\ NewSquashingBlockTransform.add chunk [] = Ok (small_block, []).
Proof.
  split; [reflexivity|]. split; [discriminate|]. split; [reflexivity|].
  apply (block_pipeline_pass_through sample_header small_block unlimited_tracker 1
           BalanceBlockTransform.init);
    [reflexivity | discriminate | reflexivity].
Defined.
